(** * The contact form of the portfolio site: form client and submission handler

    A shallow embedding of
    - [src/api/contact.js], lines 1-183: the submission handler (module [Handler]);
    - [src/api/contact.js], lines 184-446: the documented variant of the same
      handler, which re-validates the email address and has no configuration
      check (module [HandlerDoc]);
    - [src/unnamed/part_000]: the form client that posts to [/api/contact]
      (module [Client]);
    - [src/js/contact.js]: the form client that calls the EmailJS browser SDK
      directly (module [ClientSdk]);
    followed by the properties of the specification, stated on these
    definitions. *)

From Stdlib Require Import List NArith ZArith String Ascii DecimalString Bool Lia.
Import ListNotations.

Set Implicit Arguments.
Set Warnings "-register-all".  (* no induction scheme is needed for the nested [json] *)

(* ================================================================== *)
(** * JavaScript strings and values *)
(* ================================================================== *)

Module JS.

Local Open Scope N_scope.

(** A JavaScript string is a sequence of UTF-16 code units.  The code units
    are numbers below [2^16]; nothing below depends on that bound. *)
Definition code_unit := N.
Definition jsstring := list code_unit.

(** ** String literals

    The literals of the sources are written as Rocq strings.  A Rocq string
    is the sequence of the bytes of its UTF-8 encoding; [js] decodes it into
    code units (a code point above [0xFFFF] becomes a surrogate pair). *)

Definition cont (b : N) : N := N.land b 0x3F.

Definition utf16 (cp : N) : list code_unit :=
  if cp <? 0x10000 then [cp]
  else let v := cp - 0x10000 in
       [0xD800 + N.shiftr v 10; 0xDC00 + N.land v 0x3FF].

Fixpoint decode (bs : list N) : list code_unit :=
  match bs with
  | [] => []
  | b0 :: t0 =>
      if b0 <? 0x80 then b0 :: decode t0
      else if b0 <? 0xE0 then
        match t0 with
        | b1 :: t1 => (N.shiftl (N.land b0 0x1F) 6 + cont b1) :: decode t1
        | [] => [b0]
        end
      else if b0 <? 0xF0 then
        match t0 with
        | b1 :: b2 :: t2 =>
            (N.shiftl (N.land b0 0x0F) 12 + N.shiftl (cont b1) 6 + cont b2)
              :: decode t2
        | _ => b0 :: decode t0
        end
      else
        match t0 with
        | b1 :: b2 :: b3 :: t3 =>
            utf16 (N.shiftl (N.land b0 0x07) 18 + N.shiftl (cont b1) 12
                   + N.shiftl (cont b2) 6 + cont b3) ++ decode t3
        | _ => b0 :: decode t0
        end
  end.

Definition js (s : string) : jsstring :=
  decode (map (fun b => N_of_ascii (ascii_of_byte b)) (list_byte_of_string s)).

(** The sources' HTML is full of double quotes.  [html] reads a literal in
    which every double quote of the source is written as a backquote (the
    sources' HTML literals contain no backquote of their own). *)
Definition unquote (c : code_unit) : code_unit := if c =? 96 then 34 else c.
Definition html (s : string) : jsstring := map unquote (js s).

(** ** Values

    The properties that the handler reads ([req.body.name], [process.env.X],
    ...) hold a string or are absent, as the endpoint's interface and
    [process.env] have them. *)
Inductive value :=
| Undefined
| Str (s : jsstring).

(** [!v] on these values: [undefined] and the empty string are falsy. *)
Definition truthy (v : value) : bool :=
  match v with
  | Undefined => false
  | Str [] => false
  | Str (_ :: _) => true
  end.

Definition falsy (v : value) : bool := negb (truthy v).

(** [v || d] *)
Definition or_else (v : value) (d : jsstring) : value :=
  if truthy v then v else Str d.

(** [`${v}`]: the string a template literal puts in place of [v]. *)
Definition to_string (v : value) : jsstring :=
  match v with
  | Undefined => js "undefined"
  | Str s => s
  end.

(** [String(n)] for a non-negative integer such as an HTTP status. *)
Definition dec (n : N) : jsstring := js (NilZero.string_of_uint (N.to_uint n)).

(** ** White space

    The code units that [\s] matches and that [trim] removes: the WhiteSpace
    and LineTerminator productions of ECMAScript. *)
Definition is_space (c : code_unit) : bool :=
  ((0x09 <=? c) && (c <=? 0x0D))
  || (c =? 0x20) || (c =? 0xA0) || (c =? 0x1680)
  || ((0x2000 <=? c) && (c <=? 0x200A))
  || (c =? 0x2028) || (c =? 0x2029) || (c =? 0x202F) || (c =? 0x205F)
  || (c =? 0x3000) || (c =? 0xFEFF).

Fixpoint trimStart (s : jsstring) : jsstring :=
  match s with
  | [] => []
  | c :: s' => if is_space c then trimStart s' else s
  end.

Definition trimEnd (s : jsstring) : jsstring := rev (trimStart (rev s)).

(** [s.trim()] *)
Definition trim (s : jsstring) : jsstring := trimEnd (trimStart s).

(** [s.split(' ')[0]]: the part of [s] before its first space. *)
Fixpoint split_first (s : jsstring) : jsstring :=
  match s with
  | [] => []
  | c :: s' => if c =? 0x20 then [] else c :: split_first s'
  end.

(** ** JSON

    What [JSON.stringify] is given and what [response.json()] returns.  An
    object lists its properties in order; numbers are kept as integers, of
    which the programs below observe nothing but whether they are zero. *)
Inductive json :=
| JNull
| JBool (b : bool)
| JNum (n : Z)
| JStr (s : jsstring)
| JArr (l : list json)
| JObj (props : list (jsstring * json)).

Definition str_eqb (a b : jsstring) : bool :=
  if list_eq_dec N.eq_dec a b then true else false.

Fixpoint lookup {A : Type} (k : jsstring) (props : list (jsstring * A)) : option A :=
  match props with
  | [] => None
  | (k', v) :: rest => if str_eqb k k' then Some v else lookup k rest
  end.

(** [data.k] for a parsed [data] other than [null]: [None] is [undefined]. *)
Definition get (data : json) (k : jsstring) : option json :=
  match data with
  | JObj props => lookup k props
  | _ => None
  end.

(** Truthiness of a property read: [undefined], [null], [false], [0] and the
    empty string are falsy; arrays and objects are truthy. *)
Definition json_truthy (v : option json) : bool :=
  match v with
  | None | Some JNull | Some (JBool false) | Some (JNum Z0) | Some (JStr []) => false
  | Some _ => true
  end.

End JS.

(* ================================================================== *)
(** * Regular expressions *)
(* ================================================================== *)

Module Regex.

Import JS.
Local Open Scope N_scope.

(** The fragment of the regular-expression language that the sources use,
    closed under what matching by derivatives needs. *)
Inductive regex :=
| Never
| Empty
| Class (p : code_unit -> bool)
| Cat (r1 r2 : regex)
| Alt (r1 r2 : regex)
| Star (r : regex).

(** [c] *)
Definition Char (c : code_unit) : regex := Class (N.eqb c).
(** [r+] *)
Definition Plus (r : regex) : regex := Cat r (Star r).

Fixpoint nullable (r : regex) : bool :=
  match r with
  | Never => false
  | Empty => true
  | Class _ => false
  | Cat r1 r2 => nullable r1 && nullable r2
  | Alt r1 r2 => nullable r1 || nullable r2
  | Star _ => true
  end.

Fixpoint derive (c : code_unit) (r : regex) : regex :=
  match r with
  | Never => Never
  | Empty => Never
  | Class p => if p c then Empty else Never
  | Cat r1 r2 =>
      if nullable r1 then Alt (Cat (derive c r1) r2) (derive c r2)
      else Cat (derive c r1) r2
  | Alt r1 r2 => Alt (derive c r1) (derive c r2)
  | Star r1 => Cat (derive c r1) (Star r1)
  end.

(** [/^r$/.test(s)]: between the anchors [^] and [$] the whole of [s] has
    to match. *)
Fixpoint test (r : regex) (s : jsstring) : bool :=
  match s with
  | [] => nullable r
  | c :: s' => test (derive c r) s'
  end.

(** The language of a regular expression. *)
Inductive Matches : regex -> jsstring -> Prop :=
| MEmpty : Matches Empty []
| MClass p c : p c = true -> Matches (Class p) [c]
| MCat r1 r2 s1 s2 : Matches r1 s1 -> Matches r2 s2 -> Matches (Cat r1 r2) (s1 ++ s2)
| MAltL r1 r2 s : Matches r1 s -> Matches (Alt r1 r2) s
| MAltR r1 r2 s : Matches r2 s -> Matches (Alt r1 r2) s
| MStarNil r : Matches (Star r) []
| MStarApp r s1 s2 : Matches r s1 -> Matches (Star r) s2 -> Matches (Star r) (s1 ++ s2).

(** [[^\s@]] *)
Definition not_space_or_at (c : code_unit) : bool := negb (is_space c || (c =? 64)).

(** [/^[^\s@]+@[^\s@]+\.[^\s@]+$/] *)
Definition emailRegex : regex :=
  Cat (Plus (Class not_space_or_at))
   (Cat (Char 64)
    (Cat (Plus (Class not_space_or_at))
     (Cat (Char 46)
          (Plus (Class not_space_or_at))))).

(** The shape [local@domain.tld] in the words of the specification: one or
    more characters that are neither white space nor [@], an [@], one or more
    such characters, a dot, one or more such characters. *)
Definition local_domain_tld (s : jsstring) : Prop :=
  exists l d t : jsstring,
    s = l ++ 64 :: d ++ 46 :: t
    /\ l <> [] /\ d <> [] /\ t <> []
    /\ forallb not_space_or_at l = true
    /\ forallb not_space_or_at d = true
    /\ forallb not_space_or_at t = true.

End Regex.

(* ================================================================== *)
(** * The handler's world: request, response, provider, console *)
(* ================================================================== *)

Module Http.

Import JS.
Local Open Scope N_scope.

(** ** The request and the environment *)

(** [req.body] as the interface of the endpoint types it. *)
Record body := {
  name : value;
  email : value;
  subject : value;
  message : value
}.

(** [req]: [req_body = None] is a request without a body. *)
Record request := {
  method : jsstring;
  req_body : option body
}.

(** [req.body || {}] *)
Definition body_or_empty (b : option body) : body :=
  match b with
  | Some b => b
  | None => {| name := Undefined; email := Undefined;
               subject := Undefined; message := Undefined |}
  end.

(** [process.env], as far as the handler reads it. *)
Record environment := {
  EMAILJS_SERVICE_ID : value;
  EMAILJS_NOTIFICATION_TEMPLATE_ID : value;
  EMAILJS_AUTOREPLY_TEMPLATE_ID : value;
  EMAILJS_PUBLIC_KEY : value;
  EMAILJS_PRIVATE_KEY : value
}.

(** ** The outbound call *)

(** The object given to [sendEmail], which posts its [JSON.stringify]. *)
Record payload := {
  service_id : value;
  template_id : value;
  user_id : value;
  accessToken : value;
  template_params : list (jsstring * value)
}.

(** What the email API answers to one [fetch]: the promise is rejected
    (transport failure), or it resolves to a response with a status, whose
    body then reads as text or fails to. *)
Inductive body_read :=
| Text (t : jsstring)
| Unreadable (msg : jsstring).

Inductive outcome :=
| Rejected (msg : jsstring)
| Response (status : N) (b : body_read).

(** [response.ok] *)
Definition ok (status : N) : bool := (200 <=? status) && (status <=? 299).

(** The provider: its answer to the [n]-th outbound call of an invocation
    (counted from 0), given what was sent. *)
Definition provider := nat -> payload -> outcome.

(** A thrown [Error]: [err.message] and [err.responseText]. *)
Record error := {
  err_message : jsstring;
  responseText : value
}.

(** ** The response *)

Inductive sent :=
| End_                       (* [res.end()] *)
| Json (j : json).           (* [res.json(j)] *)

Record response := {
  headers : list (jsstring * jsstring);
  statusCode : N;
  reply : option sent
}.

(** ** Events, in the order in which they happen *)

Inductive logged :=
| LJson (j : json)
| LErr (e : error).

Inductive event :=
| Fetch (url method : jsstring) (hdrs : list (jsstring * jsstring)) (p : payload)
| Settled (o : outcome)
| ConsoleLog (args : list logged)
| ConsoleError (args : list logged).

Record world := {
  trace : list event;
  res : response
}.

Definition start : world :=
  {| trace := []; res := {| headers := []; statusCode := 200; reply := None |} |}.

(** ** Computations that change the world and may throw *)

Inductive result (A : Type) :=
| Return (a : A)
| Throw (e : error).
Arguments Return {A} a.
Arguments Throw {A} e.

Definition M (A : Type) : Type := world -> result A * world.

Definition ret {A} (a : A) : M A := fun w => (Return a, w).

Definition throw {A} (e : error) : M A := fun w => (Throw e, w).

Definition bind {A B} (m : M A) (k : A -> M B) : M B :=
  fun w =>
    match m w with
    | (Return a, w') => k a w'
    | (Throw e, w') => (Throw e, w')
    end.

(** [try { m } catch (err) { h err }] *)
Definition try_catch {A} (m : M A) (h : error -> M A) : M A :=
  fun w =>
    match m w with
    | (Return a, w') => (Return a, w')
    | (Throw e, w') => h e w'
    end.

Declare Scope js_scope.
Delimit Scope js_scope with js.
Notation "x <- m ;; k" := (bind m (fun x => k))
  (at level 61, m at next level, right associativity) : js_scope.
Notation "m ;; k" := (bind m (fun _ => k))
  (at level 61, right associativity) : js_scope.

Definition emit (e : event) : M unit :=
  fun w => (Return tt, {| trace := trace w ++ [e]; res := res w |}).

Definition update_res (f : response -> response) : M unit :=
  fun w => (Return tt, {| trace := trace w; res := f (res w) |}).

(** [res.setHeader(k, v)] *)
Definition setHeader (k v : jsstring) : M unit :=
  update_res (fun r =>
    {| headers := filter (fun h => negb (str_eqb (fst h) k)) (headers r) ++ [(k, v)];
       statusCode := statusCode r; reply := reply r |}).

(** [res.status(code).json(j)] *)
Definition status_json (code : N) (j : json) : M unit :=
  update_res (fun r =>
    {| headers := headers r; statusCode := code; reply := Some (Json j) |}).

(** [res.status(code).end()] *)
Definition status_end (code : N) : M unit :=
  update_res (fun r =>
    {| headers := headers r; statusCode := code; reply := Some End_ |}).

Definition console_log (args : list logged) : M unit := emit (ConsoleLog args).
Definition console_error (args : list logged) : M unit := emit (ConsoleError args).

(** The outbound calls issued so far, oldest first. *)
Fixpoint calls (t : list event) : list payload :=
  match t with
  | [] => []
  | Fetch _ _ _ p :: t' => p :: calls t'
  | _ :: t' => calls t'
  end.

Definition endpoint : jsstring := js "https://api.emailjs.com/api/v1.0/email/send".

(** The request that [sendEmail] makes for a payload. *)
Definition posted (p : payload) : event :=
  Fetch endpoint (js "POST") [(js "Content-Type", js "application/json")] p.

(** [await fetch(endpoint, { method: 'POST', headers: {...}, body:
    JSON.stringify(p) })]: the request goes out, the provider answers, and
    the caller goes on only then; a rejected promise throws. *)
Definition fetch (api : provider) (p : payload) : M (N * body_read) :=
  fun w =>
    let o := api (List.length (calls (trace w))) p in
    let w' := {| trace := trace w ++ [posted p; Settled o]; res := res w |} in
    match o with
    | Rejected msg => (Throw {| err_message := msg; responseText := Undefined |}, w')
    | Response status b => (Return (status, b), w')
    end.

(** [await response.text()] *)
Definition text (b : body_read) : M jsstring :=
  match b with
  | Text t => ret t
  | Unreadable msg => throw {| err_message := msg; responseText := Undefined |}
  end.

(** What an invocation leaves behind. *)
Definition run (m : M unit) : world := snd (m start).

(** The response as the client sees it: status and body. *)
Definition answer (w : world) : N * option sent := (statusCode (res w), reply (res w)).

End Http.

(* ================================================================== *)
(** * The submission handler ([src/api/contact.js], lines 1-183) *)
(* ================================================================== *)

Module Handler.

Import JS Http.
Local Open Scope N_scope.
Local Open Scope js_scope.

(** ** [buildAutoReplyHtml]: the literal text of the template, cut at its
    three interpolations *)

Definition mail_top : jsstring := html
"<!DOCTYPE html>
<html lang=`en`>
<head>
  <meta charset=`UTF-8` />
  <meta name=`viewport` content=`width=device-width, initial-scale=1.0` />
</head>
<body style=`margin:0;padding:0;font-family:'Segoe UI',Tahoma,Geneva,Verdana,sans-serif;background:#f0f4f8;`>
  <table width=`100%` cellpadding=`0` cellspacing=`0` style=`background:#f0f4f8;padding:40px 16px;`>
    <tr>
      <td align=`center`>
        <table width=`600` cellpadding=`0` cellspacing=`0` style=`max-width:600px;width:100%;background:#ffffff;border-radius:20px;overflow:hidden;box-shadow:0 8px 40px rgba(0,0,0,0.12);`>
          <tr>
            <td style=`background:linear-gradient(135deg,#001f3f 0%,#003d7a 60%,#0057a8 100%);padding:40px 32px;text-align:center;`>
              <div style=`display:inline-block;width:64px;height:64px;background:rgba(255,255,255,0.15);border-radius:50%;line-height:64px;font-size:26px;font-weight:800;color:#ffffff;margin-bottom:18px;border:2px solid rgba(255,255,255,0.3);`>BM</div>
              <h1 style=`margin:0 0 6px;color:#ffffff;font-size:26px;font-weight:700;`>Message Received!</h1>
              <p style=`margin:0;color:rgba(255,255,255,0.8);font-size:15px;`>I'll be in touch with you soon, ".

(* ${name} *)
Definition mail_greeting : jsstring := html
".</p>
            </td>
          </tr>
          <tr>
            <td style=`padding:36px 32px;`>
              <p style=`margin:0 0 20px;color:#1a1a2e;font-size:16px;line-height:1.6;`>Hi <strong>".

(* ${name} *)
Definition mail_thanks : jsstring := html
"</strong>,</p>
              <p style=`margin:0 0 20px;color:#4a5568;font-size:15px;line-height:1.7;`>
                Thank you for reaching out regarding <strong style=`color:#003d7a;`>`".

(* ${displaySubject} *)
Definition mail_rest : jsstring := html
"`</strong>.
                I've received your message and will get back to you within <strong>24-48 hours</strong>.
              </p>
              <div style=`border-top:2px solid #e8edf5;margin:28px 0;`></div>
              <div style=`background:#f7f9fc;border-left:4px solid #003d7a;border-radius:0 10px 10px 0;padding:20px 22px;margin-bottom:28px;`>
                <p style=`margin:0 0 8px;color:#003d7a;font-size:13px;font-weight:700;text-transform:uppercase;letter-spacing:0.8px;`>What happens next</p>
                <p style=`margin:0;color:#4a5568;font-size:14px;line-height:1.7;`>
                  I review every message personally. Expect a reply shortly. If it's urgent, feel free to reach me directly on WhatsApp.
                </p>
              </div>
              <div style=`text-align:center;margin-bottom:32px;`>
                <a href=`https://betsamukuba.vercel.app/` style=`display:inline-block;background:linear-gradient(135deg,#001f3f,#003d7a);color:#ffffff;text-decoration:none;padding:14px 36px;border-radius:50px;font-size:15px;font-weight:600;`>
                  View My Portfolio →
                </a>
              </div>
              <div style=`border-top:2px solid #e8edf5;margin:28px 0;`></div>
              <p style=`margin:0 0 18px;text-align:center;color:#4a5568;font-size:14px;font-weight:600;text-transform:uppercase;letter-spacing:0.8px;`>Connect with me</p>
              <table width=`100%` cellpadding=`0` cellspacing=`0`>
                <tr>
                  <td align=`center`>
                    <table cellpadding=`0` cellspacing=`0`>
                      <tr>
                        <td style=`padding:0 10px;`>
                          <a href=`https://linkedin.com/in/betsaleel-mukuba` target=`_blank` style=`text-decoration:none;`>
                            <div style=`width:52px;height:52px;background:#0077b5;border-radius:50%;text-align:center;line-height:52px;`>
                              <img src=`https://cdn-icons-png.flaticon.com/512/174/174857.png` width=`26` height=`26` alt=`LinkedIn` style=`vertical-align:middle;` />
                            </div>
                            <p style=`margin:6px 0 0;text-align:center;color:#0077b5;font-size:11px;font-weight:600;`>LinkedIn</p>
                          </a>
                        </td>
                        <td style=`padding:0 10px;`>
                          <a href=`https://wa.me/260969508654` target=`_blank` style=`text-decoration:none;`>
                            <div style=`width:52px;height:52px;background:#25d366;border-radius:50%;text-align:center;line-height:52px;`>
                              <img src=`https://cdn-icons-png.flaticon.com/512/220/220236.png` width=`26` height=`26` alt=`WhatsApp` style=`vertical-align:middle;` />
                            </div>
                            <p style=`margin:6px 0 0;text-align:center;color:#25d366;font-size:11px;font-weight:600;`>WhatsApp</p>
                          </a>
                        </td>
                        <td style=`padding:0 10px;`>
                          <a href=`https://facebook.com/betsa.mukuba` target=`_blank` style=`text-decoration:none;`>
                            <div style=`width:52px;height:52px;background:#1877f2;border-radius:50%;text-align:center;line-height:52px;`>
                              <img src=`https://cdn-icons-png.flaticon.com/512/733/733547.png` width=`26` height=`26` alt=`Facebook` style=`vertical-align:middle;` />
                            </div>
                            <p style=`margin:6px 0 0;text-align:center;color:#1877f2;font-size:11px;font-weight:600;`>Facebook</p>
                          </a>
                        </td>
                      </tr>
                    </table>
                  </td>
                </tr>
              </table>
            </td>
          </tr>
          <tr>
            <td style=`background:#f7f9fc;padding:24px 32px;text-align:center;border-top:2px solid #e8edf5;`>
              <p style=`margin:0 0 4px;color:#718096;font-size:13px;`>Best regards,</p>
              <p style=`margin:0 0 2px;color:#001f3f;font-size:18px;font-weight:700;`>Betsaleel Mukuba</p>
              <p style=`margin:0 0 14px;color:#718096;font-size:12px;`>Frontend Developer & Web Specialist · Lusaka, Zambia</p>
              <p style=`margin:0;color:#a0aec0;font-size:11px;`>© 2026 Betsaleel Mukuba · This is an automated reply.</p>
            </td>
          </tr>
        </table>
      </td>
    </tr>
  </table>
</body>
</html>".

(** [function buildAutoReplyHtml(name, subject)] *)
Definition buildAutoReplyHtml (name subject : value) : jsstring :=
  let displaySubject := or_else subject (js "your message") in
  mail_top ++ to_string name
  ++ mail_greeting ++ to_string name
  ++ mail_thanks ++ to_string displaySubject
  ++ mail_rest.

Section Invocation.

Variable api : provider.

(** [async function sendEmail(payload)] *)
Definition sendEmail (p : payload) : M (N * jsstring) :=
  response <- fetch api p ;;
  t <- text (snd response) ;;
  if negb (ok (fst response)) then
    throw {| err_message := js "EmailJS " ++ dec (fst response) ++ js ": " ++ t;
             responseText := Str t |}
  else ret (fst response, t).

Definition notification (env : environment) (b : body) : payload :=
  {| service_id := EMAILJS_SERVICE_ID env;
     template_id := EMAILJS_NOTIFICATION_TEMPLATE_ID env;
     user_id := EMAILJS_PUBLIC_KEY env;
     accessToken := EMAILJS_PRIVATE_KEY env;
     template_params :=
       [ (js "from_name", name b);
         (js "from_email", email b);
         (js "reply_to", email b);
         (js "subject", or_else (subject b) (js "(No subject)"));
         (js "message", message b) ] |}.

Definition auto_reply (env : environment) (b : body) : payload :=
  {| service_id := EMAILJS_SERVICE_ID env;
     template_id := EMAILJS_AUTOREPLY_TEMPLATE_ID env;
     user_id := EMAILJS_PUBLIC_KEY env;
     accessToken := EMAILJS_PRIVATE_KEY env;
     template_params :=
       [ (js "from_name", name b);
         (js "reply_to", email b);
         (js "subject", or_else (subject b) (js "your message"));
         (js "auto_reply_html", Str (buildAutoReplyHtml (name b) (subject b))) ] |}.

(** The object that the handler logs when a credential is missing. *)
Definition present (env : environment) : json :=
  JObj [ (js "EMAILJS_SERVICE_ID", JBool (truthy (EMAILJS_SERVICE_ID env)));
         (js "EMAILJS_PUBLIC_KEY", JBool (truthy (EMAILJS_PUBLIC_KEY env)));
         (js "EMAILJS_PRIVATE_KEY", JBool (truthy (EMAILJS_PRIVATE_KEY env)));
         (js "EMAILJS_NOTIFICATION_TEMPLATE_ID",
            JBool (truthy (EMAILJS_NOTIFICATION_TEMPLATE_ID env)));
         (js "EMAILJS_AUTOREPLY_TEMPLATE_ID",
            JBool (truthy (EMAILJS_AUTOREPLY_TEMPLATE_ID env))) ].

(** [err.responseText || err] *)
Definition details_of (err : error) : logged :=
  if truthy (responseText err) then LJson (JStr (to_string (responseText err)))
  else LErr err.

(** The [try] block: the two calls, one after the other. *)
Definition send_both (env : environment) (b : body) : M unit :=
  notifResponse <- sendEmail (notification env b) ;;
  console_log [LJson (JStr (js "Notification sent, status:"));
               LJson (JNum (Z.of_N (fst notifResponse)))] ;;
  replyResponse <- sendEmail (auto_reply env b) ;;
  console_log [LJson (JStr (js "Auto-reply sent, status:"));
               LJson (JNum (Z.of_N (fst replyResponse)))] ;;
  status_json 200 (JObj [(js "success", JBool true)]).

(** The [catch] block. *)
Definition send_failed (err : error) : M unit :=
  console_error [LJson (JStr (js "EmailJS error message:"));
                 LJson (JStr (err_message err))] ;;
  console_error [LJson (JStr (js "EmailJS error details:")); details_of err] ;;
  status_json 500
    (JObj [ (js "error", JStr (js "Failed to send email. Please try again."));
            (js "details", JStr (err_message err)) ]).

(** [module.exports = async (req, res) => ...] *)
Definition handler (env : environment) (req : request) : M unit :=
  setHeader (js "Access-Control-Allow-Origin") (js "*") ;;
  setHeader (js "Access-Control-Allow-Methods") (js "POST, OPTIONS") ;;
  setHeader (js "Access-Control-Allow-Headers") (js "Content-Type") ;;
  if str_eqb (method req) (js "OPTIONS") then status_end 200
  else if negb (str_eqb (method req) (js "POST")) then
    status_json 405 (JObj [(js "error", JStr (js "Method Not Allowed"))])
  else
    let b := body_or_empty (req_body req) in
    if falsy (name b) || falsy (email b) || falsy (message b) then
      status_json 400
        (JObj [(js "error", JStr (js "Name, email and message are required."))])
    else if falsy (EMAILJS_SERVICE_ID env) || falsy (EMAILJS_PUBLIC_KEY env)
            || falsy (EMAILJS_PRIVATE_KEY env) then
      console_error [LJson (JStr (js "Missing env vars:")); LJson (present env)] ;;
      status_json 500
        (JObj [(js "error",
                JStr (js "Server misconfiguration — missing environment variables."))])
    else
      try_catch (send_both env b) send_failed.

End Invocation.

End Handler.

(* ================================================================== *)
(** * The documented variant of the handler ([src/api/contact.js], lines
      184-446) *)
(* ================================================================== *)

Module HandlerDoc.

Import JS Http.
Local Open Scope N_scope.
Local Open Scope js_scope.

(** ** [buildAutoReplyHtml]: the literal text of the template, cut at its
    four interpolations *)

Definition mail_top : jsstring := html
"<!DOCTYPE html>
<html lang=`en`>
<head>
  <meta charset=`UTF-8` />
  <meta name=`viewport` content=`width=device-width, initial-scale=1.0` />
  <title>Thank You</title>
</head>
<body style=`margin:0;padding:0;font-family:'Segoe UI',Tahoma,Geneva,Verdana,sans-serif;background:#f0f4f8;`>

  <!-- Wrapper -->
  <table width=`100%` cellpadding=`0` cellspacing=`0` style=`background:#f0f4f8;padding:40px 16px;`>
    <tr>
      <td align=`center`>
        <table width=`600` cellpadding=`0` cellspacing=`0` style=`max-width:600px;width:100%;background:#ffffff;border-radius:20px;overflow:hidden;box-shadow:0 8px 40px rgba(0,0,0,0.12);`>

          <!-- ── HEADER ── -->
          <tr>
            <td style=`background:linear-gradient(135deg,#001f3f 0%,#003d7a 60%,#0057a8 100%);padding:40px 32px;text-align:center;`>
              <!-- Logo circle -->
              <div style=`display:inline-block;width:64px;height:64px;background:rgba(255,255,255,0.15);border-radius:50%;line-height:64px;font-size:26px;font-weight:800;color:#ffffff;margin-bottom:18px;border:2px solid rgba(255,255,255,0.3);`>BM</div>
              <h1 style=`margin:0 0 6px;color:#ffffff;font-size:26px;font-weight:700;letter-spacing:-0.5px;`>Message Received!</h1>
              <p style=`margin:0;color:rgba(255,255,255,0.8);font-size:15px;`>I'll be in touch with you soon, ".

(* ${name} *)
Definition mail_greeting : jsstring := html
".</p>
            </td>
          </tr>

          <!-- ── BODY ── -->
          <tr>
            <td style=`padding:36px 32px;`>

              <!-- Greeting -->
              <p style=`margin:0 0 20px;color:#1a1a2e;font-size:16px;line-height:1.6;`>Hi <strong>".

(* ${name} *)
Definition mail_thanks : jsstring := html
"</strong>,</p>
              <p style=`margin:0 0 20px;color:#4a5568;font-size:15px;line-height:1.7;`>
                Thank you for reaching out regarding <strong style=`color:#003d7a;`>`".

(* ${displaySubject} *)
Definition mail_next : jsstring := html
"`</strong>.
                I've received your message and will get back to you within <strong>24–48 hours</strong>.
              </p>

              <!-- Divider -->
              <div style=`border-top:2px solid #e8edf5;margin:28px 0;`></div>

              <!-- What happens next box -->
              <div style=`background:#f7f9fc;border-left:4px solid #003d7a;border-radius:0 10px 10px 0;padding:20px 22px;margin-bottom:28px;`>
                <p style=`margin:0 0 8px;color:#003d7a;font-size:13px;font-weight:700;text-transform:uppercase;letter-spacing:0.8px;`>What happens next</p>
                <p style=`margin:0;color:#4a5568;font-size:14px;line-height:1.7;`>
                  I review every message personally. Expect a thoughtful reply to <strong>".

(* ${name.split(' ')[0]} *)
Definition mail_rest : jsstring := html
"</strong>'s inbox shortly. If it's urgent, feel free to reach me directly on WhatsApp.
                </p>
              </div>

              <!-- CTA button -->
              <div style=`text-align:center;margin-bottom:32px;`>
                <a href=`https://betsamukuba.vercel.app/`
                   style=`display:inline-block;background:linear-gradient(135deg,#001f3f,#003d7a);color:#ffffff;text-decoration:none;padding:14px 36px;border-radius:50px;font-size:15px;font-weight:600;letter-spacing:0.3px;`>
                  View My Portfolio →
                </a>
              </div>

              <!-- Divider -->
              <div style=`border-top:2px solid #e8edf5;margin:28px 0;`></div>

              <!-- Connect section -->
              <p style=`margin:0 0 18px;text-align:center;color:#4a5568;font-size:14px;font-weight:600;text-transform:uppercase;letter-spacing:0.8px;`>Connect with me</p>

              <!-- Social icons row -->
              <table width=`100%` cellpadding=`0` cellspacing=`0`>
                <tr>
                  <td align=`center`>
                    <table cellpadding=`0` cellspacing=`0`>
                      <tr>

                        <!-- LinkedIn -->
                        <td style=`padding:0 10px;`>
                          <a href=`https://linkedin.com/in/betsaleel-mukuba` target=`_blank` style=`display:inline-block;text-decoration:none;`>
                            <div style=`width:52px;height:52px;background:#0077b5;border-radius:50%;display:flex;align-items:center;justify-content:center;margin:0 auto 6px;`>
                              <img src=`https://cdn-icons-png.flaticon.com/512/174/174857.png` width=`26` height=`26` alt=`LinkedIn` style=`display:block;margin:13px auto;` />
                            </div>
                            <p style=`margin:0;text-align:center;color:#0077b5;font-size:11px;font-weight:600;`>LinkedIn</p>
                          </a>
                        </td>

                        <!-- WhatsApp -->
                        <td style=`padding:0 10px;`>
                          <a href=`https://wa.me/260969508654` target=`_blank` style=`display:inline-block;text-decoration:none;`>
                            <div style=`width:52px;height:52px;background:#25d366;border-radius:50%;display:flex;align-items:center;justify-content:center;margin:0 auto 6px;`>
                              <img src=`https://cdn-icons-png.flaticon.com/512/220/220236.png` width=`26` height=`26` alt=`WhatsApp` style=`display:block;margin:13px auto;` />
                            </div>
                            <p style=`margin:0;text-align:center;color:#25d366;font-size:11px;font-weight:600;`>WhatsApp</p>
                          </a>
                        </td>

                        <!-- Facebook -->
                        <td style=`padding:0 10px;`>
                          <a href=`https://facebook.com/betsa.mukuba` target=`_blank` style=`display:inline-block;text-decoration:none;`>
                            <div style=`width:52px;height:52px;background:#1877f2;border-radius:50%;display:flex;align-items:center;justify-content:center;margin:0 auto 6px;`>
                              <img src=`https://cdn-icons-png.flaticon.com/512/733/733547.png` width=`26` height=`26` alt=`Facebook` style=`display:block;margin:13px auto;` />
                            </div>
                            <p style=`margin:0;text-align:center;color:#1877f2;font-size:11px;font-weight:600;`>Facebook</p>
                          </a>
                        </td>

                      </tr>
                    </table>
                  </td>
                </tr>
              </table>

            </td>
          </tr>

          <!-- ── FOOTER ── -->
          <tr>
            <td style=`background:#f7f9fc;padding:24px 32px;text-align:center;border-top:2px solid #e8edf5;`>
              <p style=`margin:0 0 4px;color:#718096;font-size:13px;`>Best regards,</p>
              <p style=`margin:0 0 2px;color:#001f3f;font-size:18px;font-weight:700;`>Betsaleel Mukuba</p>
              <p style=`margin:0 0 14px;color:#718096;font-size:12px;`>Frontend Developer &amp; Web Specialist · Lusaka, Zambia</p>
              <p style=`margin:0;color:#a0aec0;font-size:11px;`>
                © 2026 Betsaleel Mukuba · This is an automated reply — please do not reply directly to this email.
              </p>
            </td>
          </tr>

        </table>
      </td>
    </tr>
  </table>

</body>
</html>".

(** [name.split(' ')[0]]; reading [split] of [undefined] throws. *)
Definition first_word (name : value) : M jsstring :=
  match name with
  | Str s => ret (split_first s)
  | Undefined =>
      throw {| err_message := js "Cannot read properties of undefined (reading 'split')";
               responseText := Undefined |}
  end.

(** [function buildAutoReplyHtml(name, subject)] *)
Definition buildAutoReplyHtml (name subject : value) : M jsstring :=
  let displaySubject := or_else subject (js "your message") in
  first <- first_word name ;;
  ret (mail_top ++ to_string name
       ++ mail_greeting ++ to_string name
       ++ mail_thanks ++ to_string displaySubject
       ++ mail_next ++ first
       ++ mail_rest).

Section Invocation.

Variable api : provider.

(** [async function sendEmail(payload)]: the body is read only when the
    status is not a success. *)
Definition sendEmail (p : payload) : M (N * body_read) :=
  response <- fetch api p ;;
  if negb (ok (fst response)) then
    t <- text (snd response) ;;
    throw {| err_message :=
               js "EmailJS responded with " ++ dec (fst response) ++ js ": " ++ t;
             responseText := Undefined |}
  else ret response.

Definition notification (env : environment) (b : body) : payload :=
  {| service_id := EMAILJS_SERVICE_ID env;
     template_id := EMAILJS_NOTIFICATION_TEMPLATE_ID env;
     user_id := EMAILJS_PUBLIC_KEY env;
     accessToken := EMAILJS_PRIVATE_KEY env;
     template_params :=
       [ (js "from_name", name b);
         (js "from_email", email b);
         (js "reply_to", email b);
         (js "subject", or_else (subject b) (js "(No subject)"));
         (js "message", message b) ] |}.

Definition auto_reply (env : environment) (b : body) (page : jsstring) : payload :=
  {| service_id := EMAILJS_SERVICE_ID env;
     template_id := EMAILJS_AUTOREPLY_TEMPLATE_ID env;
     user_id := EMAILJS_PUBLIC_KEY env;
     accessToken := EMAILJS_PRIVATE_KEY env;
     template_params :=
       [ (js "from_name", name b);
         (js "reply_to", email b);
         (js "subject", or_else (subject b) (js "your message"));
         (js "auto_reply_html", Str page) ] |}.

(** The [try] block. *)
Definition send_both (env : environment) (b : body) : M unit :=
  sendEmail (notification env b) ;;
  page <- buildAutoReplyHtml (name b) (subject b) ;;
  sendEmail (auto_reply env b page) ;;
  status_json 200 (JObj [(js "success", JBool true)]).

(** The [catch] block. *)
Definition send_failed (err : error) : M unit :=
  console_error [LJson (JStr (js "EmailJS error:")); LErr err] ;;
  status_json 500
    (JObj [(js "error", JStr (js "Failed to send email. Please try again."))]).

(** [module.exports = async (req, res) => ...] *)
Definition handler (env : environment) (req : request) : M unit :=
  setHeader (js "Access-Control-Allow-Origin") (js "*") ;;
  setHeader (js "Access-Control-Allow-Methods") (js "POST, OPTIONS") ;;
  setHeader (js "Access-Control-Allow-Headers") (js "Content-Type") ;;
  if str_eqb (method req) (js "OPTIONS") then status_end 200
  else if negb (str_eqb (method req) (js "POST")) then
    status_json 405 (JObj [(js "error", JStr (js "Method Not Allowed"))])
  else
    let b := body_or_empty (req_body req) in
    if falsy (name b) || falsy (email b) || falsy (message b) then
      status_json 400
        (JObj [(js "error", JStr (js "Name, email and message are required."))])
    else if negb (Regex.test Regex.emailRegex (to_string (email b))) then
      status_json 400 (JObj [(js "error", JStr (js "Invalid email address."))])
    else
      try_catch (send_both env b) send_failed.

End Invocation.

End HandlerDoc.

(* ================================================================== *)
(** * The page of the contact form *)
(* ================================================================== *)

Module Dom.

Import JS.
Local Open Scope N_scope.

(** The submit control: its [innerHTML], [disabled] and [style.background]. *)
Record button := {
  innerHTML : jsstring;
  disabled : bool;
  background : jsstring
}.

(** The [value] of the inputs [#name], [#email], [#subject], [#message]. *)
Record form := {
  name_value : jsstring;
  email_value : jsstring;
  subject_value : jsstring;
  message_value : jsstring
}.

(** The [.form-toast] element: what [showToast] was given.  A message is a
    string, or whatever the server sent as [error]. *)
Record toast := {
  toast_message : json;
  toast_type : jsstring
}.

(** The callbacks handed to [setTimeout]. *)
Inductive callback :=
| RemoveToast (id : nat)                  (* [() => toast.remove()] *)
| ResetForm (originalHTML : jsstring).    (* the callback of the success branch *)

(** A call that leaves the page: a [fetch], or a [send] of the EmailJS SDK. *)
Record init := {
  req_method : jsstring;
  req_headers : list (jsstring * jsstring);
  req_json : json                         (* [body: JSON.stringify(req_json)] *)
}.

Inductive outgoing :=
| Post (url : jsstring) (i : init)
| EmailjsSend (service template : jsstring) (params : list (jsstring * jsstring)).

(** The page, as the DOM contract of the form has it: the four inputs and the
    submit control exist. *)
Record page := {
  inputs : form;
  defaults : form;                        (* what [contactForm.reset()] restores *)
  submitBtn : button;
  shown : option (nat * toast);           (* the toast in the document, with its identity *)
  made : nat;                             (* toasts created so far *)
  timers : list (N * callback);               (* pending [setTimeout]s, oldest first *)
  network : list outgoing                 (* calls issued, oldest first *)
}.

Definition set_button (b : button) (p : page) : page :=
  {| inputs := inputs p; defaults := defaults p; submitBtn := b; shown := shown p;
     made := made p; timers := timers p; network := network p |}.

Definition setTimeout (t : callback) (ms : N) (p : page) : page :=
  {| inputs := inputs p; defaults := defaults p; submitBtn := submitBtn p;
     shown := shown p; made := made p; timers := timers p ++ [(ms, t)];
     network := network p |}.

Definition send (r : outgoing) (p : page) : page :=
  {| inputs := inputs p; defaults := defaults p; submitBtn := submitBtn p;
     shown := shown p; made := made p; timers := timers p;
     network := network p ++ [r] |}.

(** [function showToast(message, type)]: the toast in the document, if any,
    is replaced by a new one, which is removed after five seconds.  (Its
    styling is not modelled.) *)
Definition showToast (message : json) (type : jsstring) (p : page) : page :=
  setTimeout (RemoveToast (made p)) 5000
    {| inputs := inputs p; defaults := defaults p; submitBtn := submitBtn p;
       shown := Some (made p, {| toast_message := message; toast_type := type |});
       made := S (made p); timers := timers p; network := network p |}.

(** What a timer does when it fires. *)
Definition fire (t : callback) (p : page) : page :=
  match t with
  | RemoveToast id =>
      match shown p with
      | Some (id', _) =>
          if Nat.eqb id id' then
            {| inputs := inputs p; defaults := defaults p; submitBtn := submitBtn p;
               shown := None; made := made p; timers := timers p;
               network := network p |}
          else p
      | None => p
      end
  | ResetForm originalHTML =>
      {| inputs := defaults p; defaults := defaults p;
         submitBtn := {| innerHTML := originalHTML; disabled := false;
                         background := [] |};
         shown := shown p; made := made p; timers := timers p;
         network := network p |}
  end.

(** The posts that went to [url]. *)
Fixpoint posts_to (url : jsstring) (l : list outgoing) : list init :=
  match l with
  | [] => []
  | Post u i :: l' => if str_eqb u url then i :: posts_to url l' else posts_to url l'
  | EmailjsSend _ _ _ :: l' => posts_to url l'
  end.

(** Every [fetch] of the page. *)
Fixpoint fetches (l : list outgoing) : list (jsstring * init) :=
  match l with
  | [] => []
  | Post u i :: l' => (u, i) :: fetches l'
  | EmailjsSend _ _ _ :: l' => fetches l'
  end.

End Dom.

(* ================================================================== *)
(** * The form client that posts to the handler ([src/unnamed/part_000]) *)
(* ================================================================== *)

Module Client.

Import JS Dom.
Local Open Scope N_scope.

(** The submit handler of [#contactForm].  The entry animations are
    presentation and are not modelled; the colouring of empty required fields
    on blur is modelled apart, in [Field]. *)

(** What comes back from [fetch('/api/contact', ...)]: the promise is
    rejected, or it resolves to a response with a status whose body parses as
    JSON ([Some]) or does not ([None], [response.json()] is rejected). *)
Inductive outcome :=
| Unreachable
| Responded (status : N) (data : option json).

Definition server := init -> outcome.

(** What the handler holds while its request is in flight. *)
Record pending := {
  originalHTML : jsstring;
  posted : init
}.

(** The submit handler up to its first [await]: the fields are read and
    trimmed, checked, and the request goes out.  The result says whether a
    request is in flight. *)
Definition submit_begin (p : page) : page * option pending :=
  let name := trim (name_value (inputs p)) in
  let email := trim (email_value (inputs p)) in
  let subject := trim (subject_value (inputs p)) in
  let message := trim (message_value (inputs p)) in
  if falsy (Str name) || falsy (Str email) || falsy (Str message) then
    (showToast (JStr (js "Please fill in all required fields.")) (js "error") p, None)
  else if negb (Regex.test Regex.emailRegex email) then
    (showToast (JStr (js "Please enter a valid email address.")) (js "error") p, None)
  else
    let originalHTML := innerHTML (submitBtn p) in
    let sending :=
      {| innerHTML := html "<i class=`fas fa-spinner fa-spin`></i> Sending...";
         disabled := true;
         background := background (submitBtn p) |} in
    let i :=
      {| req_method := js "POST";
         req_headers := [(js "Content-Type", js "application/json")];
         req_json := JObj [ (js "name", JStr name);
                            (js "email", JStr email);
                            (js "subject", JStr subject);
                            (js "message", JStr message) ] |} in
    (send (Post (js "/api/contact") i) (set_button sending p),
     Some {| originalHTML := originalHTML; posted := i |}).

(** The [catch] block. *)
Definition unreachable (originalHTML : jsstring) (p : page) : page :=
  let p := showToast (JStr (js "Could not reach the server. Please check your connection."))
             (js "error") p in
  set_button {| innerHTML := originalHTML; disabled := false;
                background := background (submitBtn p) |} p.

(** [data.error || 'Something went wrong. Please try again.'] *)
Definition error_or_fallback (data : json) : json :=
  match get data (js "error") with
  | Some e => if json_truthy (Some e) then e
              else JStr (js "Something went wrong. Please try again.")
  | None => JStr (js "Something went wrong. Please try again.")
  end.

(** The handler after its [await]s, on the page as it is by then.  Reading a
    property of [null] throws, into the [catch] block. *)
Definition submit_settle (originalHTML : jsstring) (o : outcome) (p : page) : page :=
  match o with
  | Unreachable => unreachable originalHTML p
  | Responded _ None => unreachable originalHTML p
  | Responded _ (Some JNull) => unreachable originalHTML p
  | Responded status (Some data) =>
      if Http.ok status && json_truthy (get data (js "success")) then
        let p := set_button
                   {| innerHTML := html "<i class=`fas fa-check`></i> Message Sent!";
                      disabled := disabled (submitBtn p);
                      background := js "linear-gradient(135deg, #27ae60, #2ecc71)" |} p in
        let p := showToast
                   (JStr (js "Message sent! Check your inbox for a confirmation email."))
                   (js "success") p in
        setTimeout (ResetForm originalHTML) 3000 p
      else
        let p := showToast (error_or_fallback data) (js "error") p in
        set_button {| innerHTML := originalHTML; disabled := false;
                      background := background (submitBtn p) |} p
  end.

(** One submission from start to end, with nothing else happening on the
    page in between. *)
Definition submit (srv : server) (p : page) : page :=
  match submit_begin p with
  | (p', Some q) => submit_settle (originalHTML q) (srv (posted q)) p'
  | (p', None) => p'
  end.

End Client.

(* ================================================================== *)
(** * The form client that calls the EmailJS SDK ([src/js/contact.js]) *)
(* ================================================================== *)

Module ClientSdk.

Import JS Dom.
Local Open Scope N_scope.

Definition EMAILJS_PUBLIC_KEY : jsstring := js "YOUR_PUBLIC_KEY".
Definition EMAILJS_SERVICE_ID : jsstring := js "YOUR_SERVICE_ID".
Definition NOTIFICATION_TEMPLATE_ID : jsstring := js "YOUR_NOTIFICATION_TEMPLATE_ID".
Definition AUTOREPLY_TEMPLATE_ID : jsstring := js "YOUR_AUTOREPLY_TEMPLATE_ID".

(** Whether the [n]-th [emailjs.send] of a submission (counted from 0)
    resolves. *)
Definition sdk := nat -> bool.

Definition templateParams (name email subject message : jsstring)
  : list (jsstring * jsstring) :=
  [ (js "from_name", name);
    (js "from_email", email);
    (js "reply_to", email);
    (js "subject", to_string (or_else (Str subject) (js "(No subject)")));
    (js "message", message) ].

(** The [catch] block. *)
Definition failed (originalHTML : jsstring) (p : page) : page :=
  let p := showToast (JStr (js "Failed to send message. Please try again."))
             (js "error") p in
  set_button {| innerHTML := originalHTML; disabled := false;
                background := background (submitBtn p) |} p.

(** The submit handler, with nothing else happening on the page while it
    waits. *)
Definition submit (emailjs : sdk) (p : page) : page :=
  let name := trim (name_value (inputs p)) in
  let email := trim (email_value (inputs p)) in
  let subject := trim (subject_value (inputs p)) in
  let message := trim (message_value (inputs p)) in
  if falsy (Str name) || falsy (Str email) || falsy (Str message) then
    showToast (JStr (js "Please fill in all required fields.")) (js "error") p
  else if negb (Regex.test Regex.emailRegex email) then
    showToast (JStr (js "Please enter a valid email address.")) (js "error") p
  else
    let originalHTML := innerHTML (submitBtn p) in
    let p := set_button
               {| innerHTML := html "<i class=`fas fa-spinner fa-spin`></i> Sending...";
                  disabled := true;
                  background := background (submitBtn p) |} p in
    let params := templateParams name email subject message in
    let p := send (EmailjsSend EMAILJS_SERVICE_ID NOTIFICATION_TEMPLATE_ID params) p in
    if negb (emailjs 0%nat) then failed originalHTML p
    else
      let p := send (EmailjsSend EMAILJS_SERVICE_ID AUTOREPLY_TEMPLATE_ID params) p in
      if negb (emailjs 1%nat) then failed originalHTML p
      else
        let p := set_button
                   {| innerHTML := html "<i class=`fas fa-check`></i> Message Sent!";
                      disabled := disabled (submitBtn p);
                      background := js "linear-gradient(135deg, #27ae60, #2ecc71)" |} p in
        let p := showToast
                   (JStr (js "Message sent! Check your inbox for a confirmation email."))
                   (js "success") p in
        setTimeout (ResetForm originalHTML) 3000 p.

End ClientSdk.

(* ================================================================== *)
(** * The fields of the form as they lose and gain focus
      ([src/unnamed/part_000], lines 93-106; [src/js/contact.js], lines
      79-91) *)
(* ================================================================== *)

Module Field.

Import JS.
Local Open Scope N_scope.

(** An [input] or [textarea] of the form: its [value], whether it has the
    attribute [required], and its [style.borderColor]. *)
Record input := {
  value_ : jsstring;
  required : bool;
  borderColor : jsstring
}.

(** The listener for [blur]. *)
Definition blur (i : input) : input :=
  if str_eqb (trim (value_ i)) [] && required i then
    {| value_ := value_ i; required := required i; borderColor := js "#e74c3c" |}
  else
    {| value_ := value_ i; required := required i; borderColor := [] |}.

(** The listener for [focus]. *)
Definition focus (i : input) : input :=
  {| value_ := value_ i; required := required i; borderColor := [] |}.

End Field.

(* ================================================================== *)
(** * From the client to the handler and back *)
(* ================================================================== *)

Module Wire.

Import JS.
Local Open Scope N_scope.

(** A property of the parsed body as the handler reads it.  The handler is
    modelled on properties that hold a string or are absent; a property that
    holds anything else is outside that model ([None]). *)
Definition property (j : json) (k : jsstring) : option value :=
  match get j k with
  | None => Some Undefined
  | Some (JStr s) => Some (Str s)
  | Some _ => None
  end.

(** The request that the handler receives for a [fetch] of the client:
    [req.method] is the method, [req.body] the parsed JSON. *)
Definition received (i : Dom.init) : option Http.request :=
  match Dom.req_json i with
  | JObj props =>
      match property (JObj props) (js "name"), property (JObj props) (js "email"),
            property (JObj props) (js "subject"), property (JObj props) (js "message") with
      | Some n, Some e, Some s, Some m =>
          Some {| Http.method := Dom.req_method i;
                  Http.req_body := Some {| Http.name := n; Http.email := e;
                                           Http.subject := s; Http.message := m |} |}
      | _, _, _, _ => None
      end
  | _ => None
  end.

(** What the client's [fetch] resolves to when the handler has answered: the
    status, and the body as [response.json()] parses it (an empty body does
    not parse).  An invocation that has not answered leaves the request
    hanging, which the client never sees. *)
Definition seen (w : Http.world) : option Client.outcome :=
  match Http.reply (Http.res w) with
  | Some (Http.Json j) => Some (Client.Responded (Http.statusCode (Http.res w)) (Some j))
  | Some Http.End_ => Some (Client.Responded (Http.statusCode (Http.res w)) None)
  | None => None
  end.

(** What the client's [fetch] resolves to when the handler [h] serves it. *)
Definition handled (h : Http.request -> Http.M unit) (i : Dom.init)
  : option Client.outcome :=
  match received i with
  | Some req => seen (Http.run (h req))
  | None => None
  end.

End Wire.

(* ================================================================== *)
(** * The vocabulary of the properties, and sample inputs *)
(* ================================================================== *)

Module HandlerTerms.

Import JS Http.
Local Open Scope N_scope.

(** A property is missing or holds the empty string. *)
Definition absent_or_empty (v : value) : Prop := v = Undefined \/ v = Str [].

(** A property holds a string that is not empty. *)
Definition non_empty (v : value) : Prop := exists s, v = Str s /\ s <> [].

(** All five configuration values are present. *)
Definition configured (env : environment) : Prop :=
  non_empty (EMAILJS_SERVICE_ID env)
  /\ non_empty (EMAILJS_NOTIFICATION_TEMPLATE_ID env)
  /\ non_empty (EMAILJS_AUTOREPLY_TEMPLATE_ID env)
  /\ non_empty (EMAILJS_PUBLIC_KEY env)
  /\ non_empty (EMAILJS_PRIVATE_KEY env).

(** The three values that the handler checks before it sends. *)
Definition credentials (env : environment) : Prop :=
  non_empty (EMAILJS_SERVICE_ID env)
  /\ non_empty (EMAILJS_PUBLIC_KEY env)
  /\ non_empty (EMAILJS_PRIVATE_KEY env).

(** An outbound call succeeds: the provider answers with a success status
    and a readable body. *)
Definition succeeds (o : outcome) : Prop :=
  exists status t, o = Response status (Text t) /\ ok status = true.

(** An outbound call fails: the transport fails (before or while the answer
    is read), or the provider answers with a status that is no success. *)
Inductive fails : outcome -> Prop :=
| fails_transport msg : fails (Rejected msg)
| fails_reading status msg : fails (Response status (Unreadable msg))
| fails_status status b : ok status = false -> fails (Response status b).

(** The documented variant reads the body of a refusal only: for it a call
    succeeds as soon as the status is a success. *)
Definition accepted (o : outcome) : Prop :=
  exists status b, o = Response status b /\ ok status = true.

(** The message that the handler's [catch] block receives from a failed
    call: [err.message]. *)
Definition failure_message (o : outcome) : jsstring :=
  match o with
  | Rejected msg => msg
  | Response _ (Unreadable msg) => msg
  | Response status (Text t) => js "EmailJS " ++ dec status ++ js ": " ++ t
  end.

(** The three required fields of a body are present and not empty. *)
Definition complete (b : body) : Prop :=
  non_empty (name b) /\ non_empty (email b) /\ non_empty (message b).

End HandlerTerms.

Module ClientTerms.

Import JS Dom.
Local Open Scope N_scope.

(** The form passes the checks of the client: the trimmed name, email and
    message are not empty, and the trimmed email has the shape
    [local@domain.tld]. *)
Definition valid (f : form) : Prop :=
  trim (name_value f) <> [] /\ trim (email_value f) <> []
  /\ trim (message_value f) <> []
  /\ Regex.local_domain_tld (trim (email_value f)).

(** The body that the client posts for a form. *)
Definition submission (f : form) : json :=
  JObj [ (js "name", JStr (trim (name_value f)));
         (js "email", JStr (trim (email_value f)));
         (js "subject", JStr (trim (subject_value f)));
         (js "message", JStr (trim (message_value f))) ].

(** A submission fails: the request never completes, or the status is no
    success, or the body is no JSON, or it does not say [success]. *)
Definition failed (o : Client.outcome) : Prop :=
  o = Client.Unreachable
  \/ exists status data,
       o = Client.Responded status data
       /\ (Http.ok status = false
           \/ data = None
           \/ exists d, data = Some d /\ json_truthy (get d (js "success")) = false).

End ClientTerms.

Module Sample.

Import JS Http Dom.
Local Open Scope N_scope.

Definition env_full : environment :=
  {| EMAILJS_SERVICE_ID := Str (js "service_1");
     EMAILJS_NOTIFICATION_TEMPLATE_ID := Str (js "template_n");
     EMAILJS_AUTOREPLY_TEMPLATE_ID := Str (js "template_a");
     EMAILJS_PUBLIC_KEY := Str (js "public");
     EMAILJS_PRIVATE_KEY := Str (js "private") |}.

(** Everything but the notification template. *)
Definition env_no_template : environment :=
  {| EMAILJS_SERVICE_ID := Str (js "service_1");
     EMAILJS_NOTIFICATION_TEMPLATE_ID := Undefined;
     EMAILJS_AUTOREPLY_TEMPLATE_ID := Str (js "template_a");
     EMAILJS_PUBLIC_KEY := Str (js "public");
     EMAILJS_PRIVATE_KEY := Str (js "private") |}.

(** Everything but the private key. *)
Definition env_no_key : environment :=
  {| EMAILJS_SERVICE_ID := Str (js "service_1");
     EMAILJS_NOTIFICATION_TEMPLATE_ID := Str (js "template_n");
     EMAILJS_AUTOREPLY_TEMPLATE_ID := Str (js "template_a");
     EMAILJS_PUBLIC_KEY := Str (js "public");
     EMAILJS_PRIVATE_KEY := Undefined |}.

(** The input of the first end-to-end example of the specification. *)
Definition jo : body :=
  {| name := Str (js "Jo"); email := Str (js "jo@x.com");
     subject := Str []; message := Str (js "Hi") |}.

(** The input of the second end-to-end example: an empty name, no subject. *)
Definition nameless : body :=
  {| name := Str []; email := Str (js "jo@x.com");
     subject := Undefined; message := Str (js "Hi") |}.

(** A body whose email address has no [@]. *)
Definition jo_at_nowhere : body :=
  {| name := Str (js "Jo"); email := Str (js "jo.x.com");
     subject := Str (js "Hello"); message := Str (js "Hi") |}.

(** A body whose name is a single space. *)
Definition blank_name : body :=
  {| name := Str (js " "); email := Str (js "jo@x.com");
     subject := Str (js "Hello"); message := Str (js "Hi") |}.

Definition post (b : body) : request :=
  {| method := js "POST"; req_body := Some b |}.

(** A provider that accepts every call. *)
Definition accepting : provider := fun _ _ => Response 200 (Text (js "OK")).

(** A provider that refuses every call. *)
Definition refusing : provider := fun _ _ => Response 400 (Text (js "Bad Request")).

(** A provider that cannot be reached. *)
Definition down : provider := fun _ _ => Rejected (js "fetch failed").

Definition empty_form : form :=
  {| name_value := []; email_value := []; subject_value := []; message_value := [] |}.

Definition fresh_page (f : form) : page :=
  {| inputs := f; defaults := empty_form;
     submitBtn := {| innerHTML := js "Send Message"; disabled := false;
                     background := [] |};
     shown := None; made := 0; timers := []; network := [] |}.

(** The form as a visitor may fill it in, with blanks around the name. *)
Definition form_jo : form :=
  {| name_value := js "  Jo "; email_value := js "jo@x.com";
     subject_value := []; message_value := js "Hi" |}.

(** The same form with an address that has no dot after the [@]. *)
Definition form_bad_email : form :=
  {| name_value := js "Jo"; email_value := js "jo@x";
     subject_value := []; message_value := js "Hi" |}.

End Sample.

(* ================================================================== *)
(** * Tactics *)
(* ================================================================== *)

(** Runs the handler up to its [try] block, given its two checks in their
    boolean form, and opens the block. *)
Ltac enter_try Hb He :=
  unfold Http.run, Handler.handler; cbn; rewrite Hb, He; cbn;
  unfold Http.try_catch, Handler.send_both, Handler.sendEmail, Http.bind, Http.fetch;
  cbn.


(* ================================================================== *)
(** * Further vocabulary *)
(* ================================================================== *)

Module MoreTerms.

Import JS Http.
Local Open Scope N_scope.

(** An outbound call is refused: the transport fails, or the status is no
    success (whatever the body). *)
Definition refused (o : outcome) : Prop :=
  (exists msg, o = Rejected msg)
  \/ (exists status bd, o = Response status bd /\ ok status = false).

(** The three headers that the handler sets first. *)
Definition cors : list (jsstring * jsstring) :=
  [ (js "Access-Control-Allow-Origin", js "*");
    (js "Access-Control-Allow-Methods", js "POST, OPTIONS");
    (js "Access-Control-Allow-Headers", js "Content-Type") ].

(** The page that the documented variant builds for a name and a subject. *)
Definition documented_page (n : jsstring) (subject : value) : jsstring :=
  HandlerDoc.mail_top ++ n
  ++ HandlerDoc.mail_greeting ++ n
  ++ HandlerDoc.mail_thanks ++ to_string (or_else subject (js "your message"))
  ++ HandlerDoc.mail_next ++ split_first n
  ++ HandlerDoc.mail_rest.

(** The request that the posting client makes for a form. *)
Definition request_of (f : Dom.form) : Dom.init :=
  {| Dom.req_method := js "POST";
     Dom.req_headers := [(js "Content-Type", js "application/json")];
     Dom.req_json := ClientTerms.submission f |}.

(** The body that the handler reads from that request. *)
Definition body_of (f : Dom.form) : body :=
  {| name := Str (trim (Dom.name_value f));
     email := Str (trim (Dom.email_value f));
     subject := Str (trim (Dom.subject_value f));
     message := Str (trim (Dom.message_value f)) |}.

End MoreTerms.

Module MoreSample.

Import JS Http Dom.
Local Open Scope N_scope.

(** A provider that accepts the first call and cannot be reached for the
    second. *)
Definition second_down : provider :=
  fun n _ => match n with
             | O => Response 200 (Text (js "OK"))
             | _ => Rejected (js "fetch failed")
             end.

(** A provider that accepts every call with a body that cannot be read. *)
Definition bodiless : provider := fun _ _ => Response 202 (Unreadable (js "terminated")).

(** A body whose email address is followed by a space. *)
Definition jo_with_blank : body :=
  {| name := Str (js "Jo"); email := Str (js "jo@x.com ");
     subject := Str (js "Hello"); message := Str (js "Hi") |}.

(** A form whose message holds blanks only. *)
Definition form_blank_message : form :=
  {| name_value := js "Jo"; email_value := js "jo@x.com";
     subject_value := js "Hello"; message_value := js "   " |}.

(** A server that answers every request with 200 and [{success: true}]. *)
Definition thanking : Client.server :=
  fun _ => Client.Responded 200 (Some (JObj [(js "success", JBool true)])).

(** A server that answers every request as the handler does when the
    provider cannot be reached. *)
Definition failing : Client.server :=
  fun _ => Client.Responded 500
             (Some (JObj [ (js "error", JStr (js "Failed to send email. Please try again."));
                           (js "details", JStr (js "fetch failed")) ])).

End MoreSample.

(* ================================================================== *)
(** * Properties of the regular-expression test *)
(* ================================================================== *)

Unset Implicit Arguments.

Section RegexFacts.

Import JS Regex.
Local Open Scope N_scope.

Lemma Matches_cat_iff r1 r2 s :
  Matches (Cat r1 r2) s <->
  exists s1 s2, s = s1 ++ s2 /\ Matches r1 s1 /\ Matches r2 s2.
Proof.
  split.
  - intros H. inversion H; subst. eauto.
  - intros (s1 & s2 & -> & H1 & H2). now constructor.
Qed.

Lemma Matches_alt_iff r1 r2 s :
  Matches (Alt r1 r2) s <-> Matches r1 s \/ Matches r2 s.
Proof.
  split.
  - intros H. inversion H; subst; auto.
  - intros [H | H]; [apply MAltL | apply MAltR]; assumption.
Qed.

Lemma Matches_class_iff p s :
  Matches (Class p) s <-> exists c, s = [c] /\ p c = true.
Proof.
  split.
  - intros H. inversion H; subst. eauto.
  - intros (c & -> & H). now constructor.
Qed.

Lemma Matches_char_iff c s : Matches (Char c) s <-> s = [c].
Proof.
  unfold Char. rewrite Matches_class_iff. split.
  - intros (c' & -> & H). apply N.eqb_eq in H. now subst.
  - intros ->. exists c. split; [reflexivity | apply N.eqb_refl].
Qed.

(** A word of a starred expression that begins with [c] begins with a word of
    the expression that begins with [c]. *)
Lemma Matches_star_cons r c s :
  Matches (Star r) (c :: s) ->
  exists s1 s2, s = s1 ++ s2 /\ Matches r (c :: s1) /\ Matches (Star r) s2.
Proof.
  intros H.
  remember (Star r) as r' eqn:Er. remember (c :: s) as w eqn:Ew.
  induction H as [ | | | | | r0 | r0 s1 s2 H1 _ H2 IH2 ]; try discriminate.
  injection Er as ->.
  destruct s1 as [ | c1 s1 ].
  - apply IH2; [reflexivity | assumption].
  - simpl in Ew. injection Ew as -> <-. exists s1, s2. auto.
Qed.

Lemma nullable_Matches r : nullable r = true <-> Matches r [].
Proof.
  split.
  - induction r as [ | | p | r1 IH1 r2 IH2 | r1 IH1 r2 IH2 | r IH ];
      simpl; intros H; try discriminate.
    + constructor.
    + apply andb_true_iff in H as [H1 H2].
      apply (MCat (s1 := []) (s2 := [])); auto.
    + apply orb_true_iff in H as [H | H]; [apply MAltL | apply MAltR]; auto.
    + constructor.
  - intros H. remember [] as w eqn:Ew.
    induction H as [ | p c Hc | r1 r2 s1 s2 _ IH1 _ IH2 | r1 r2 s _ IH
                   | r1 r2 s _ IH | r | r s1 s2 _ _ _ _ ]; simpl; try reflexivity.
    + discriminate.
    + apply app_eq_nil in Ew as [-> ->]. now rewrite IH1, IH2.
    + now rewrite IH.
    + rewrite IH by assumption. apply orb_true_r.
Qed.

(** The derivative by [c] matches what is left of a word after its first
    code unit [c]. *)
Lemma derive_Matches r : forall c s, Matches (derive c r) s <-> Matches r (c :: s).
Proof.
  induction r as [ | | p | r1 IH1 r2 IH2 | r1 IH1 r2 IH2 | r IH ]; intros c s; simpl.
  - split; intros H; inversion H.
  - split; intros H; inversion H.
  - destruct (p c) eqn:Hp; split; intros H; inversion H; subst.
    + now constructor.
    + constructor.
    + congruence.
  - assert (Hcat : Matches (Cat (derive c r1) r2) s <->
                   exists s1 s2, s = s1 ++ s2 /\ Matches r1 (c :: s1) /\ Matches r2 s2).
    { rewrite Matches_cat_iff. split; intros (s1 & s2 & E & H1 & H2);
        exists s1, s2; rewrite IH1 in *; auto. }
    assert (Hfwd : (exists s1 s2, s = s1 ++ s2 /\ Matches r1 (c :: s1) /\ Matches r2 s2)
                   -> Matches (Cat r1 r2) (c :: s)).
    { intros (s1 & s2 & -> & H1 & H2). apply (MCat (s1 := c :: s1) H1 H2). }
    destruct (nullable r1) eqn:Hn.
    + rewrite Matches_alt_iff, Hcat, IH2. split.
      * intros [H | H]; [auto | ].
        apply (MCat (s1 := [])); [now apply nullable_Matches | assumption].
      * intros H. apply Matches_cat_iff in H as (s1 & s2 & E & H1 & H2).
        destruct s1 as [ | c1 s1 ]; simpl in E.
        -- right. now rewrite E.
        -- injection E as -> ->. left. eauto.
    + rewrite Hcat. split; [assumption | ].
      intros H. apply Matches_cat_iff in H as (s1 & s2 & E & H1 & H2).
      destruct s1 as [ | c1 s1 ]; simpl in E.
      * apply nullable_Matches in H1. congruence.
      * injection E as -> ->. eauto.
  - rewrite !Matches_alt_iff, IH1, IH2. reflexivity.
  - rewrite Matches_cat_iff. split.
    + intros (s1 & s2 & -> & H1 & H2). apply IH in H1.
      apply (MStarApp (s1 := c :: s1) H1 H2).
    + intros H. apply Matches_star_cons in H as (s1 & s2 & E & H1 & H2).
      exists s1, s2. rewrite IH. auto.
Qed.

(** The test by derivatives decides the language. *)
Lemma test_Matches s : forall r, test r s = true <-> Matches r s.
Proof.
  induction s as [ | c s IH ]; intros r; simpl.
  - apply nullable_Matches.
  - rewrite IH. apply derive_Matches.
Qed.

Lemma Matches_star_class p s :
  Matches (Star (Class p)) s <-> forallb p s = true.
Proof.
  induction s as [ | c s IH ]; simpl.
  - split; [reflexivity | constructor].
  - rewrite andb_true_iff, <- IH. split.
    + intros H. apply Matches_star_cons in H as (s1 & s2 & -> & H1 & H2).
      inversion H1; subst. simpl. auto.
    + intros [Hc H]. apply (MStarApp (s1 := [c])); [now constructor | assumption].
Qed.

(** [[p]+] matches the non-empty words all of whose code units are in the
    class. *)
Lemma Matches_plus_class p s :
  Matches (Plus (Class p)) s <-> s <> [] /\ forallb p s = true.
Proof.
  unfold Plus. rewrite Matches_cat_iff. split.
  - intros (s1 & s2 & -> & H1 & H2).
    apply Matches_class_iff in H1 as (c & -> & Hc).
    apply Matches_star_class in H2. simpl. rewrite Hc, H2.
    split; [discriminate | reflexivity].
  - intros [Hne H]. destruct s as [ | c s ]; [contradiction | ].
    simpl in H. apply andb_true_iff in H as [Hc H].
    exists [c], s. repeat split.
    + now constructor.
    + now apply Matches_star_class.
Qed.

(** The refinement behind the email check: the regular expression of the
    sources accepts exactly the words of the shape that the specification
    describes. *)
Lemma emailRegex_shape s :
  test emailRegex s = true <-> local_domain_tld s.
Proof.
  rewrite test_Matches. unfold emailRegex, local_domain_tld. split.
  - intros H.
    apply Matches_cat_iff in H as (l & s1 & -> & Hl & H).
    apply Matches_cat_iff in H as (a & s2 & -> & Ha & H).
    apply Matches_cat_iff in H as (d & s3 & -> & Hd & H).
    apply Matches_cat_iff in H as (o & t & -> & Ho & Ht).
    apply Matches_char_iff in Ha, Ho. subst a o.
    apply Matches_plus_class in Hl as [? ?], Hd as [? ?], Ht as [? ?].
    exists l, d, t. simpl. repeat split; assumption.
  - intros (l & d & t & -> & Hl & Hd & Ht & Fl & Fd & Ft).
    apply MCat; [now apply Matches_plus_class | ].
    apply (MCat (s1 := [64])); [now apply Matches_char_iff | ].
    apply MCat; [now apply Matches_plus_class | ].
    apply (MCat (s1 := [46])); [now apply Matches_char_iff | ].
    now apply Matches_plus_class.
Qed.

End RegexFacts.

(* ================================================================== *)
(** * What the email check excludes *)
(* ================================================================== *)

Section RegexMore.

Import JS.
Local Open Scope N_scope.

Lemma class_no_space l :
  forallb Regex.not_space_or_at l = true ->
  forallb (fun c => negb (is_space c)) l = true.
Proof.
  induction l as [ | c l IH ]; simpl; [reflexivity | ].
  intros H. apply andb_true_iff in H as [Hc H]. rewrite (IH H).
  unfold Regex.not_space_or_at in Hc. apply negb_true_iff, orb_false_iff in Hc as [Hc _].
  now rewrite Hc.
Qed.

Lemma class_no_at l :
  forallb Regex.not_space_or_at l = true -> count_occ N.eq_dec l 64 = 0%nat.
Proof.
  induction l as [ | c l IH ]; simpl; [reflexivity | ].
  intros H. apply andb_true_iff in H as [Hc H].
  unfold Regex.not_space_or_at in Hc. apply negb_true_iff, orb_false_iff in Hc as [_ Hc].
  apply N.eqb_neq in Hc. destruct (N.eq_dec c 64); [contradiction | auto].
Qed.

Lemma trimStart_no_space s :
  forallb (fun c => negb (is_space c)) s = true -> trimStart s = s.
Proof.
  destruct s as [ | c s ]; simpl; [reflexivity | ].
  intros H. apply andb_true_iff in H as [Hc _]. apply negb_true_iff in Hc.
  now rewrite Hc.
Qed.

Lemma trim_no_space s :
  forallb (fun c => negb (is_space c)) s = true -> trim s = s.
Proof.
  intros H. unfold trim, trimEnd. rewrite (trimStart_no_space s H).
  rewrite trimStart_no_space; [apply rev_involutive | ].
  apply forallb_forall. intros c Hc. apply in_rev in Hc.
  revert c Hc. now apply forallb_forall.
Qed.

Lemma shape_no_space s :
  Regex.local_domain_tld s -> forallb (fun c => negb (is_space c)) s = true.
Proof.
  intros (l & d & t & -> & _ & _ & _ & Fl & Fd & Ft).
  rewrite forallb_app. simpl. rewrite forallb_app. simpl.
  now rewrite (class_no_space l Fl), (class_no_space d Fd), (class_no_space t Ft).
Qed.

End RegexMore.

(* ================================================================== *)
(** * The definitions on small inputs *)
(* ================================================================== *)

Section Runs.

Import JS Regex Http Dom.
Local Open Scope N_scope.

Example trim_removes_blanks_around : trim (js "  Jo Li ") = js "Jo Li".
Proof. reflexivity. Qed.

Example trim_of_blanks_is_empty : trim [0x20; 0x09; 0xA0; 0x0A] = [].
Proof. reflexivity. Qed.

Example split_first_takes_first_word : split_first (js "Jo Li") = js "Jo".
Proof. reflexivity. Qed.

Example literal_decodes_to_code_units : js "a©→" = [0x61; 0xA9; 0x2192].
Proof. reflexivity. Qed.

Example emailRegex_accepts_plain_address : test emailRegex (js "jo@x.com") = true.
Proof. reflexivity. Qed.

Example emailRegex_accepts_dotted_domain : test emailRegex (js "jo@mail.x.com") = true.
Proof. reflexivity. Qed.

Example emailRegex_wants_a_dot : test emailRegex (js "jo@x") = false.
Proof. reflexivity. Qed.

Example emailRegex_wants_a_domain : test emailRegex (js "jo@.com") = false.
Proof. reflexivity. Qed.

Example emailRegex_refuses_blanks : test emailRegex (js "j o@x.com") = false.
Proof. reflexivity. Qed.

Example emailRegex_refuses_second_at : test emailRegex (js "jo@x@y.com") = false.
Proof. reflexivity. Qed.

(** A preflight request is answered with 200, an empty body and the three
    CORS headers; any other method than POST with 405. *)
Example handler_answers_preflight :
  res (run (Handler.handler Sample.accepting Sample.env_full
              {| method := js "OPTIONS"; req_body := None |}))
  = {| headers := [ (js "Access-Control-Allow-Origin", js "*");
                    (js "Access-Control-Allow-Methods", js "POST, OPTIONS");
                    (js "Access-Control-Allow-Headers", js "Content-Type") ];
       statusCode := 200;
       reply := Some End_ |}.
Proof. reflexivity. Qed.

Example handler_refuses_get :
  answer (run (Handler.handler Sample.accepting Sample.env_full
                 {| method := js "GET"; req_body := None |}))
  = (405, Some (Json (JObj [(js "error", JStr (js "Method Not Allowed"))]))).
Proof. reflexivity. Qed.

(** A refusal of the provider ends up in [details] with its status and
    text. *)
Example handler_reports_refusal :
  answer (run (Handler.handler Sample.refusing Sample.env_full (Sample.post Sample.jo)))
  = (500, Some (Json (JObj
       [ (js "error", JStr (js "Failed to send email. Please try again."));
         (js "details", JStr (js "EmailJS 400: Bad Request")) ]))).
Proof. reflexivity. Qed.

(** After a success the client schedules the reset of the form, and the
    reset gives the control its label back. *)
Example client_resets_after_success :
  let p := Client.submit
             (fun _ => Client.Responded 200 (Some (JObj [(js "success", JBool true)])))
             (Sample.fresh_page Sample.form_jo) in
  timers p = [(5000, RemoveToast 0); (3000, ResetForm (js "Send Message"))]
  /\ inputs (fire (ResetForm (js "Send Message")) p) = Sample.empty_form
  /\ submitBtn (fire (ResetForm (js "Send Message")) p)
     = {| innerHTML := js "Send Message"; disabled := false; background := [] |}.
Proof. repeat split. Qed.

End Runs.

(* ================================================================== *)
(** * Properties of the submission handler *)
(* ================================================================== *)

Section HandlerFacts.

Import JS Http HandlerTerms.
Local Open Scope N_scope.

Arguments Handler.buildAutoReplyHtml : simpl never.
Arguments HandlerDoc.buildAutoReplyHtml : simpl never.
Arguments dec : simpl never.

Lemma falsy_absent_or_empty v : falsy v = true <-> absent_or_empty v.
Proof.
  unfold absent_or_empty, falsy. destruct v as [ | [ | c s ] ]; simpl; split; auto.
  - discriminate.
  - intros [H | H]; discriminate.
Qed.

Lemma falsy_non_empty v : falsy v = false <-> non_empty v.
Proof.
  unfold non_empty, falsy. destruct v as [ | [ | c s ] ]; simpl; split; try discriminate.
  - intros (s & E & _). discriminate.
  - intros (s & E & H). injection E as <-. contradiction.
  - intros _. exists (c :: s). split; [reflexivity | discriminate].
  - reflexivity.
Qed.

Lemma str_eqb_eq a b : str_eqb a b = true <-> a = b.
Proof.
  unfold str_eqb. destruct (list_eq_dec N.eq_dec a b); split; congruence.
Qed.

(** The check of the required fields, as a boolean and as a proposition. *)
Lemma complete_guard b :
  falsy (name b) || falsy (email b) || falsy (message b) = false <-> complete b.
Proof.
  unfold complete. rewrite <- !falsy_non_empty, !orb_false_iff. tauto.
Qed.

Lemma incomplete_guard b :
  falsy (name b) || falsy (email b) || falsy (message b) = true <->
  absent_or_empty (name b) \/ absent_or_empty (email b) \/ absent_or_empty (message b).
Proof.
  rewrite <- !falsy_absent_or_empty, !orb_true_iff. tauto.
Qed.

Lemma fails_or_succeeds o : fails o \/ succeeds o.
Proof.
  destruct o as [msg | status [t | msg]].
  - left. constructor.
  - destruct (ok status) eqn:E.
    + right. exists status, t. auto.
    + left. now constructor.
  - left. constructor.
Qed.

Lemma fails_not_succeeds o : fails o -> ~ succeeds o.
Proof.
  intros F (status & t & E & O). subst o. inversion F; congruence.
Qed.

(** What the handler does with a request that is no POST. *)
Lemma Handler_other_method api env req :
  method req <> js "POST" ->
  let w := run (Handler.handler api env req) in
  trace w = []
  /\ (answer w = (200, Some End_)
      \/ answer w = (405, Some (Json (JObj [(js "error", JStr (js "Method Not Allowed"))])))).
Proof.
  intros Hm. destruct req as [m ob]. simpl in Hm.
  unfold run, Handler.handler. cbn [method].
  destruct (str_eqb m (js "OPTIONS")) eqn:E1;
    [cbn; split; [reflexivity | left; reflexivity] | ].
  destruct (str_eqb m (js "POST")) eqn:E2; cbn;
    [ | split; [reflexivity | right; reflexivity]].
  apply str_eqb_eq in E2. contradiction.
Qed.

Lemma Handler_incomplete api env req :
  method req = js "POST" ->
  ~ complete (body_or_empty (req_body req)) ->
  let w := run (Handler.handler api env req) in
  trace w = []
  /\ answer w = (400, Some (Json (JObj [(js "error",
                   JStr (js "Name, email and message are required."))]))).
Proof.
  intros Hm Hb. destruct req as [m ob]. simpl in *. subst m.
  rewrite <- complete_guard in Hb. apply not_false_is_true in Hb.
  unfold run, Handler.handler. cbn. rewrite Hb. cbn. split; reflexivity.
Qed.

Lemma Handler_misconfigured api env req :
  method req = js "POST" ->
  complete (body_or_empty (req_body req)) ->
  absent_or_empty (EMAILJS_SERVICE_ID env) \/ absent_or_empty (EMAILJS_PUBLIC_KEY env)
  \/ absent_or_empty (EMAILJS_PRIVATE_KEY env) ->
  let w := run (Handler.handler api env req) in
  calls (trace w) = []
  /\ answer w = (500, Some (Json (JObj [(js "error",
        JStr (js "Server misconfiguration — missing environment variables."))]))).
Proof.
  intros Hm Hb He. destruct req as [m ob]. simpl in *. subst m.
  apply complete_guard in Hb.
  rewrite <- !falsy_absent_or_empty, <- !orb_true_iff, orb_assoc in He.
  unfold run, Handler.handler. cbn. rewrite Hb, He. cbn. split; reflexivity.
Qed.


Lemma credentials_guard env :
  falsy (EMAILJS_SERVICE_ID env) || falsy (EMAILJS_PUBLIC_KEY env)
  || falsy (EMAILJS_PRIVATE_KEY env) = false <-> credentials env.
Proof.
  unfold credentials. rewrite <- !falsy_non_empty, !orb_false_iff. tauto.
Qed.

Lemma configured_credentials env : configured env -> credentials env.
Proof. unfold configured, credentials. tauto. Qed.

Lemma Handler_first_fails api env b :
  complete b -> credentials env ->
  fails (api 0%nat (Handler.notification env b)) ->
  let w := run (Handler.handler api env {| method := js "POST"; req_body := Some b |}) in
  calls (trace w) = [Handler.notification env b]
  /\ answer w =
     (500, Some (Json (JObj
        [ (js "error", JStr (js "Failed to send email. Please try again."));
          (js "details",
             JStr (failure_message (api 0%nat (Handler.notification env b)))) ]))).
Proof.
  intros Hb He F.
  apply complete_guard in Hb. apply credentials_guard in He. enter_try Hb He.
  inversion F as [msg E | status msg E | status bd Hok E]; cbn.
  - split; reflexivity.
  - split; reflexivity.
  - destruct bd as [t | msg]; cbn; rewrite ?Hok; cbn; split; reflexivity.
Qed.

Lemma Handler_second_fails api env b :
  complete b -> credentials env ->
  succeeds (api 0%nat (Handler.notification env b)) ->
  fails (api 1%nat (Handler.auto_reply env b)) ->
  let w := run (Handler.handler api env {| method := js "POST"; req_body := Some b |}) in
  calls (trace w) = [Handler.notification env b; Handler.auto_reply env b]
  /\ answer w =
     (500, Some (Json (JObj
        [ (js "error", JStr (js "Failed to send email. Please try again."));
          (js "details",
             JStr (failure_message (api 1%nat (Handler.auto_reply env b)))) ]))).
Proof.
  intros Hb He (st1 & t1 & E1 & O1) F.
  apply complete_guard in Hb. apply credentials_guard in He. enter_try Hb He.
  rewrite E1; cbn. rewrite O1; cbn.
  inversion F as [msg E | status msg E | status bd Hok E]; cbn.
  - split; reflexivity.
  - split; reflexivity.
  - destruct bd as [t | msg]; cbn; rewrite ?Hok; cbn; split; reflexivity.
Qed.

Lemma Handler_both_succeed api env b st1 t1 st2 t2 :
  complete b -> credentials env ->
  api 0%nat (Handler.notification env b) = Response st1 (Text t1) -> ok st1 = true ->
  api 1%nat (Handler.auto_reply env b) = Response st2 (Text t2) -> ok st2 = true ->
  let w := run (Handler.handler api env {| method := js "POST"; req_body := Some b |}) in
  trace w =
    [ posted (Handler.notification env b);
      Settled (Response st1 (Text t1));
      ConsoleLog [LJson (JStr (js "Notification sent, status:")); LJson (JNum (Z.of_N st1))];
      posted (Handler.auto_reply env b);
      Settled (Response st2 (Text t2));
      ConsoleLog [LJson (JStr (js "Auto-reply sent, status:")); LJson (JNum (Z.of_N st2))] ]
  /\ answer w = (200, Some (Json (JObj [(js "success", JBool true)]))).
Proof.
  intros Hb He E1 O1 E2 O2.
  apply complete_guard in Hb. apply credentials_guard in He. enter_try Hb He.
  rewrite E1; cbn. rewrite O1; cbn. rewrite E2; cbn. rewrite O2; cbn.
  split; reflexivity.
Qed.

(** Whatever the request, the first outbound call of an invocation, if there
    is one, is the notification for a complete body, made with the
    credentials in place. *)
Lemma Handler_calls api env req :
  let w := run (Handler.handler api env req) in
  calls (trace w) = []
  \/ exists b,
       method req = js "POST" /\ req_body req = Some b /\ complete b /\ credentials env
       /\ (calls (trace w) = [Handler.notification env b]
           \/ calls (trace w) = [Handler.notification env b; Handler.auto_reply env b]).
Proof.
  cbv zeta.
  destruct (list_eq_dec N.eq_dec (method req) (js "POST")) as [Hm | Hm];
    [ | left; destruct (Handler_other_method api env req Hm) as [T _];
        cbv zeta; now rewrite T ].
  destruct (falsy (name (body_or_empty (req_body req)))
            || falsy (email (body_or_empty (req_body req)))
            || falsy (message (body_or_empty (req_body req)))) eqn:Hb.
  { left. destruct (Handler_incomplete api env req Hm) as [T _].
    - rewrite <- complete_guard. congruence.
    - cbv zeta. now rewrite T. }
  apply complete_guard in Hb.
  destruct (falsy (EMAILJS_SERVICE_ID env) || falsy (EMAILJS_PUBLIC_KEY env)
            || falsy (EMAILJS_PRIVATE_KEY env)) eqn:He.
  { left. apply (Handler_misconfigured api env req Hm Hb).
    rewrite <- !falsy_absent_or_empty, <- !orb_true_iff, orb_assoc. exact He. }
  apply credentials_guard in He.
  destruct req as [m [b | ]]; simpl in Hm, Hb; subst m;
    [ | destruct Hb as ((s & E & _) & _); discriminate ].
  right. exists b. do 2 (split; [reflexivity | ]). do 2 (split; [assumption | ]).
  destruct (fails_or_succeeds (api 0%nat (Handler.notification env b))) as [F1 | S1].
  { left. now apply Handler_first_fails. }
  destruct (fails_or_succeeds (api 1%nat (Handler.auto_reply env b))) as [F2 | S2].
  { right. now apply Handler_second_fails. }
  right. destruct S1 as (st1 & t1 & E1 & O1), S2 as (st2 & t2 & E2 & O2).
  destruct (Handler_both_succeed api env b st1 t1 st2 t2 Hb He E1 O1 E2 O2) as [T _].
  cbv zeta. now rewrite T.
Qed.

(** A complete submission goes out as soon as the three credentials are in
    place, whatever its email address looks like. *)
Lemma Handler_first_call api env b :
  complete b -> credentials env ->
  hd_error (calls (trace (run (Handler.handler api env
                                 {| method := js "POST"; req_body := Some b |}))))
  = Some (Handler.notification env b).
Proof.
  intros Hb He.
  destruct (fails_or_succeeds (api 0%nat (Handler.notification env b))) as [F1 | S1].
  { destruct (Handler_first_fails api env b Hb He F1) as [C _]. now rewrite C. }
  destruct (fails_or_succeeds (api 1%nat (Handler.auto_reply env b))) as [F2 | S2].
  { destruct (Handler_second_fails api env b Hb He S1 F2) as [C _]. now rewrite C. }
  destruct S1 as (st1 & t1 & E1 & O1), S2 as (st2 & t2 & E2 & O2).
  destruct (Handler_both_succeed api env b st1 t1 st2 t2 Hb He E1 O1 E2 O2) as [T _].
  now rewrite T.
Qed.

(** ** The documented variant *)

Lemma HandlerDoc_incomplete api env req :
  method req = js "POST" ->
  ~ complete (body_or_empty (req_body req)) ->
  let w := run (HandlerDoc.handler api env req) in
  trace w = []
  /\ answer w = (400, Some (Json (JObj [(js "error",
                   JStr (js "Name, email and message are required."))]))).
Proof.
  intros Hm Hb. destruct req as [m ob]. simpl in *. subst m.
  rewrite <- complete_guard in Hb. apply not_false_is_true in Hb.
  unfold run, HandlerDoc.handler. cbn. rewrite Hb. cbn. split; reflexivity.
Qed.

Lemma HandlerDoc_invalid_email api env req :
  method req = js "POST" ->
  complete (body_or_empty (req_body req)) ->
  Regex.test Regex.emailRegex (to_string (email (body_or_empty (req_body req)))) = false ->
  let w := run (HandlerDoc.handler api env req) in
  trace w = []
  /\ answer w = (400, Some (Json (JObj [(js "error", JStr (js "Invalid email address."))]))).
Proof.
  intros Hm Hb Hr. destruct req as [m ob]. simpl in *. subst m.
  apply complete_guard in Hb.
  unfold run, HandlerDoc.handler.
  cbn -[Regex.test Regex.emailRegex]. rewrite Hb.
  cbn -[Regex.test Regex.emailRegex]. rewrite Hr. cbn. split; reflexivity.
Qed.

(** The page that the documented variant builds for a name that is a
    string. *)
Lemma HandlerDoc_page n subject w :
  HandlerDoc.buildAutoReplyHtml (Str n) subject w =
  (Return (HandlerDoc.mail_top ++ n
           ++ HandlerDoc.mail_greeting ++ n
           ++ HandlerDoc.mail_thanks ++ to_string (or_else subject (js "your message"))
           ++ HandlerDoc.mail_next ++ split_first n
           ++ HandlerDoc.mail_rest), w).
Proof. reflexivity. Qed.

Lemma HandlerDoc_both_accepted api env b page :
  complete b ->
  Regex.test Regex.emailRegex (to_string (email b)) = true ->
  (forall w, HandlerDoc.buildAutoReplyHtml (name b) (subject b) w = (Return page, w)) ->
  accepted (api 0%nat (HandlerDoc.notification env b)) ->
  accepted (api 1%nat (HandlerDoc.auto_reply env b page)) ->
  let w := run (HandlerDoc.handler api env {| method := js "POST"; req_body := Some b |}) in
  calls (trace w) = [HandlerDoc.notification env b; HandlerDoc.auto_reply env b page]
  /\ answer w = (200, Some (Json (JObj [(js "success", JBool true)]))).
Proof.
  intros Hb Hr Hp (st1 & b1 & E1 & O1) (st2 & b2 & E2 & O2).
  apply complete_guard in Hb.
  unfold run, HandlerDoc.handler.
  cbn -[Regex.test Regex.emailRegex]. rewrite Hb.
  cbn -[Regex.test Regex.emailRegex]. rewrite Hr. cbn.
  unfold try_catch, HandlerDoc.send_both, HandlerDoc.sendEmail, bind, fetch; cbn.
  rewrite E1; cbn. rewrite O1; cbn. rewrite Hp; cbn.
  rewrite E2; cbn. rewrite O2; cbn. split; reflexivity.
Qed.

(** Building the page changes nothing in the world. *)
Lemma HandlerDoc_page_frame name subject w :
  snd (HandlerDoc.buildAutoReplyHtml name subject w) = w.
Proof. destruct name; reflexivity. Qed.

(** The documented variant sends a valid submission whatever the environment
    holds. *)
Lemma HandlerDoc_first_call api env b :
  complete b ->
  Regex.test Regex.emailRegex (to_string (email b)) = true ->
  hd_error (calls (trace (run (HandlerDoc.handler api env
                                 {| method := js "POST"; req_body := Some b |}))))
  = Some (HandlerDoc.notification env b).
Proof.
  intros Hb Hr. apply complete_guard in Hb.
  unfold run, HandlerDoc.handler.
  cbn -[Regex.test Regex.emailRegex]. rewrite Hb.
  cbn -[Regex.test Regex.emailRegex]. rewrite Hr. cbn.
  unfold try_catch, HandlerDoc.send_both, HandlerDoc.sendEmail, bind, fetch; cbn.
  destruct (api 0%nat (HandlerDoc.notification env b)) as [msg | status bd]; cbn;
    [reflexivity | ].
  destruct (ok status); cbn.
  - match goal with
    | |- context [HandlerDoc.buildAutoReplyHtml (name b) (subject b) ?w0] =>
        pose proof (HandlerDoc_page_frame (name b) (subject b) w0) as Fr;
        destruct (HandlerDoc.buildAutoReplyHtml (name b) (subject b) w0)
          as [[page | e] w1]
    end; cbn in Fr; subst w1; cbn; [ | reflexivity].
    destruct (api _ (HandlerDoc.auto_reply env b page)) as [msg | status2 bd2]; cbn;
      [reflexivity | ].
    destruct (ok status2); cbn; [reflexivity | ].
    destruct bd2; reflexivity.
  - destruct bd; reflexivity.
Qed.

(** In the documented variant too, a first call that is refused is the last,
    and the answer is 500 with the generic message. *)
Lemma HandlerDoc_first_refused api env b :
  complete b ->
  Regex.test Regex.emailRegex (to_string (email b)) = true ->
  (exists msg, api 0%nat (HandlerDoc.notification env b) = Rejected msg)
  \/ (exists status bd, api 0%nat (HandlerDoc.notification env b) = Response status bd
                        /\ ok status = false) ->
  let w := run (HandlerDoc.handler api env {| method := js "POST"; req_body := Some b |}) in
  calls (trace w) = [HandlerDoc.notification env b]
  /\ answer w = (500, Some (Json (JObj [(js "error",
                   JStr (js "Failed to send email. Please try again."))]))).
Proof.
  intros Hb Hr F. apply complete_guard in Hb.
  unfold run, HandlerDoc.handler.
  cbn -[Regex.test Regex.emailRegex]. rewrite Hb.
  cbn -[Regex.test Regex.emailRegex]. rewrite Hr. cbn.
  unfold try_catch, HandlerDoc.send_both, HandlerDoc.sendEmail, bind, fetch; cbn.
  destruct F as [(msg & E) | (status & bd & E & O)]; rewrite E; cbn.
  - split; reflexivity.
  - rewrite O; cbn. destruct bd; cbn; split; reflexivity.
Qed.

End HandlerFacts.

(* ================================================================== *)
(** * The handler against its specification *)
(* ================================================================== *)

Section HandlerClaims.

Import JS Http HandlerTerms.
Local Open Scope N_scope.

Arguments Handler.buildAutoReplyHtml : simpl never.
Arguments HandlerDoc.buildAutoReplyHtml : simpl never.

(** C4.  A POST request without a body, or whose [name], [email] or
    [message] is missing or empty, is answered with status 400 and the body
    [{error: "Name, email and message are required."}], and no call goes out
    to the email API. *)
Theorem missing_field_is_rejected api env req :
  method req = js "POST" ->
  (req_body req = None
   \/ exists b, req_body req = Some b
        /\ (absent_or_empty (name b) \/ absent_or_empty (email b)
            \/ absent_or_empty (message b))) ->
  let w := run (Handler.handler api env req) in
  answer w = (400, Some (Json (JObj [(js "error",
                 JStr (js "Name, email and message are required."))])))
  /\ calls (trace w) = [].
Proof.
  intros Hm Hb.
  destruct (Handler_incomplete api env req Hm) as [T A].
  - rewrite <- complete_guard. intros Hc.
    destruct Hb as [E | (b & E & H)]; rewrite E in Hc; simpl in Hc.
    + discriminate.
    + apply incomplete_guard in H. congruence.
  - cbv zeta. rewrite T. split; [exact A | reflexivity].
Qed.

(** The second end-to-end example of the specification is such a request. *)
Lemma missing_field_is_rejected_witness :
  method (Sample.post Sample.nameless) = js "POST"
  /\ absent_or_empty (name Sample.nameless)
  /\ answer (run (Handler.handler Sample.accepting Sample.env_full
                    (Sample.post Sample.nameless)))
     = (400, Some (Json (JObj [(js "error",
                 JStr (js "Name, email and message are required."))])))
  /\ calls (trace (run (Handler.handler Sample.accepting Sample.env_full
                          (Sample.post Sample.nameless)))) = [].
Proof.
  split; [reflexivity | ]. split; [right; reflexivity | ].
  apply (missing_field_is_rejected Sample.accepting Sample.env_full
           (Sample.post Sample.nameless)).
  - reflexivity.
  - right. exists Sample.nameless. split; [reflexivity | ]. left. right. reflexivity.
Defined.

(** C3.  A POST request with non-empty [name], [email] and [message], with
    the configuration present and both outbound calls succeeding, is answered
    with 200 and [{success: true}]; and the request of the auto-reply goes
    out only after the notification call has settled. *)
Theorem complete_submission_is_sent api env req b :
  method req = js "POST" -> req_body req = Some b ->
  complete b -> configured env ->
  succeeds (api 0%nat (Handler.notification env b)) ->
  succeeds (api 1%nat (Handler.auto_reply env b)) ->
  let w := run (Handler.handler api env req) in
  answer w = (200, Some (Json (JObj [(js "success", JBool true)])))
  /\ exists log1 log2,
       trace w = [ posted (Handler.notification env b);
                   Settled (api 0%nat (Handler.notification env b));
                   ConsoleLog log1;
                   posted (Handler.auto_reply env b);
                   Settled (api 1%nat (Handler.auto_reply env b));
                   ConsoleLog log2 ].
Proof.
  intros Hm Hr Hb He (st1 & t1 & E1 & O1) (st2 & t2 & E2 & O2).
  destruct req as [m ob]. simpl in Hm, Hr. subst m ob.
  apply configured_credentials in He.
  destruct (Handler_both_succeed api env b st1 t1 st2 t2 Hb He E1 O1 E2 O2) as [T A].
  cbv zeta. split; [exact A | ].
  rewrite T, E1, E2. eauto.
Qed.

Lemma complete_submission_is_sent_witness :
  complete Sample.jo /\ configured Sample.env_full
  /\ answer (run (Handler.handler Sample.accepting Sample.env_full (Sample.post Sample.jo)))
     = (200, Some (Json (JObj [(js "success", JBool true)]))).
Proof.
  assert (Hn : forall s, s <> [] -> non_empty (Str s)) by (intros s H; now exists s).
  assert (Hc : complete Sample.jo) by (repeat split; apply Hn; discriminate).
  assert (He : configured Sample.env_full) by (repeat split; apply Hn; discriminate).
  split; [exact Hc | ]. split; [exact He | ].
  apply (complete_submission_is_sent Sample.accepting Sample.env_full
           (Sample.post Sample.jo) Sample.jo eq_refl eq_refl Hc He).
  - exists 200, (js "OK"). split; reflexivity.
  - exists 200, (js "OK"). split; reflexivity.
Defined.

(** C2.  Whenever the first outbound call of an invocation fails, be it that
    the provider answers with a status that is no success or that the
    transport fails, no second call is made, and the answer is 500 with the
    generic message (and the error's own text as [details]). *)
Theorem first_failure_stops_the_handler api env req p :
  let w := run (Handler.handler api env req) in
  hd_error (calls (trace w)) = Some p ->
  fails (api 0%nat p) ->
  calls (trace w) = [p]
  /\ answer w =
     (500, Some (Json (JObj
        [ (js "error", JStr (js "Failed to send email. Please try again."));
          (js "details", JStr (failure_message (api 0%nat p))) ]))).
Proof.
  cbv zeta. intros Hp F.
  destruct (Handler_calls api env req) as [E | (b & Hm & Hr & Hb & He & E)].
  - rewrite E in Hp. discriminate.
  - assert (p = Handler.notification env b) as ->.
    { destruct E as [E | E]; rewrite E in Hp; simpl in Hp; congruence. }
    destruct req as [m ob]. simpl in Hm, Hr. subst m ob.
    now apply Handler_first_fails.
Qed.

Lemma first_failure_stops_the_handler_witness :
  fails (Sample.down 0%nat (Handler.notification Sample.env_full Sample.jo))
  /\ calls (trace (run (Handler.handler Sample.down Sample.env_full (Sample.post Sample.jo))))
     = [Handler.notification Sample.env_full Sample.jo]
  /\ answer (run (Handler.handler Sample.down Sample.env_full (Sample.post Sample.jo)))
     = (500, Some (Json (JObj
          [ (js "error", JStr (js "Failed to send email. Please try again."));
            (js "details", JStr (js "fetch failed")) ]))).
Proof.
  split; [constructor | ].
  apply (first_failure_stops_the_handler Sample.down Sample.env_full
           (Sample.post Sample.jo) (Handler.notification Sample.env_full Sample.jo)).
  - reflexivity.
  - constructor.
Defined.

(** C9.  A subject that is absent or empty is replaced by the placeholder
    [(No subject)] in the notification and by [your message] in the
    auto-reply; with the configuration present and both calls succeeding the
    answer is 200 and [{success: true}].  The first end-to-end example of the
    specification is the instance [Sample.jo]. *)
Theorem empty_subject_gets_placeholders api env b :
  complete b -> absent_or_empty (subject b) -> configured env ->
  succeeds (api 0%nat (Handler.notification env b)) ->
  succeeds (api 1%nat (Handler.auto_reply env b)) ->
  let w := run (Handler.handler api env {| method := js "POST"; req_body := Some b |}) in
  exists n a,
    calls (trace w) = [n; a]
    /\ lookup (js "subject") (template_params n) = Some (Str (js "(No subject)"))
    /\ lookup (js "subject") (template_params a) = Some (Str (js "your message"))
    /\ answer w = (200, Some (Json (JObj [(js "success", JBool true)]))).
Proof.
  intros Hb Hs He (st1 & t1 & E1 & O1) (st2 & t2 & E2 & O2).
  apply configured_credentials in He.
  destruct (Handler_both_succeed api env b st1 t1 st2 t2 Hb He E1 O1 E2 O2) as [T A].
  cbv zeta. exists (Handler.notification env b), (Handler.auto_reply env b).
  rewrite T. split; [reflexivity | ].
  apply falsy_absent_or_empty in Hs. unfold falsy in Hs. apply negb_true_iff in Hs.
  unfold Handler.notification, Handler.auto_reply, or_else.
  cbn [template_params]. rewrite Hs.
  split; [reflexivity | ]. split; [reflexivity | exact A].
Qed.

Lemma empty_subject_gets_placeholders_witness :
  absent_or_empty (subject Sample.jo)
  /\ exists n a,
       calls (trace (run (Handler.handler Sample.accepting Sample.env_full
                            (Sample.post Sample.jo)))) = [n; a]
       /\ lookup (js "subject") (template_params n) = Some (Str (js "(No subject)"))
       /\ lookup (js "subject") (template_params a) = Some (Str (js "your message"))
       /\ answer (run (Handler.handler Sample.accepting Sample.env_full
                         (Sample.post Sample.jo)))
          = (200, Some (Json (JObj [(js "success", JBool true)]))).
Proof.
  assert (Hn : forall s, s <> [] -> non_empty (Str s)) by (intros s H; now exists s).
  split; [right; reflexivity | ].
  apply (empty_subject_gets_placeholders Sample.accepting Sample.env_full Sample.jo).
  - repeat split; apply Hn; discriminate.
  - right. reflexivity.
  - repeat split; apply Hn; discriminate.
  - exists 200, (js "OK"). split; reflexivity.
  - exists 200, (js "OK"). split; reflexivity.
Defined.

(** C1, as the code has it.  When the service identifier, the public key or
    the private key is absent (or empty), no call goes out, whatever the
    request; and a POST request with non-empty [name], [email] and [message]
    is answered with 500 and the misconfiguration message.  The documented
    variant has no such check: it sends every valid submission. *)
Theorem missing_credential_is_refused api env req :
  absent_or_empty (EMAILJS_SERVICE_ID env)
  \/ absent_or_empty (EMAILJS_PUBLIC_KEY env)
  \/ absent_or_empty (EMAILJS_PRIVATE_KEY env) ->
  let w := run (Handler.handler api env req) in
  calls (trace w) = []
  /\ (method req = js "POST" -> complete (body_or_empty (req_body req)) ->
      answer w = (500, Some (Json (JObj [(js "error",
        JStr (js "Server misconfiguration — missing environment variables."))]))))
  /\ (forall b,
       complete b -> Regex.local_domain_tld (to_string (email b)) ->
       hd_error (calls (trace (run (HandlerDoc.handler api env
                                      {| method := js "POST"; req_body := Some b |}))))
       = Some (HandlerDoc.notification env b)).
Proof.
  intros He. cbv zeta. split; [ | split].
  - destruct (Handler_calls api env req) as [E | (b & _ & _ & _ & Hc & _)]; [exact E | ].
    apply credentials_guard in Hc.
    rewrite <- !falsy_absent_or_empty, <- !orb_true_iff, orb_assoc in He. congruence.
  - intros Hm Hb. now apply Handler_misconfigured.
  - intros b Hb Hr. apply HandlerDoc_first_call; [exact Hb | ].
    now apply emailRegex_shape.
Qed.

Lemma missing_credential_is_refused_witness :
  absent_or_empty (EMAILJS_PRIVATE_KEY Sample.env_no_key)
  /\ calls (trace (run (Handler.handler Sample.accepting Sample.env_no_key
                          (Sample.post Sample.jo)))) = []
  /\ answer (run (Handler.handler Sample.accepting Sample.env_no_key
                    (Sample.post Sample.jo)))
     = (500, Some (Json (JObj [(js "error",
          JStr (js "Server misconfiguration — missing environment variables."))]))).
Proof.
  assert (Hn : forall s, s <> [] -> non_empty (Str s)) by (intros s H; now exists s).
  split; [left; reflexivity | ].
  destruct (missing_credential_is_refused Sample.accepting Sample.env_no_key
              (Sample.post Sample.jo)) as (C & A & _).
  - right. right. left. reflexivity.
  - split; [exact C | ]. apply A; [reflexivity | ].
    repeat split; apply Hn; discriminate.
Defined.

(** C1 as stated fails.  With every value present but the notification
    template the handler sends both emails and answers 200; and the
    documented variant, which has no check, calls the provider without a
    private key. *)
Lemma unchecked_configuration_reaches_the_provider :
  EMAILJS_NOTIFICATION_TEMPLATE_ID Sample.env_no_template = Undefined
  /\ calls (trace (run (Handler.handler Sample.accepting Sample.env_no_template
                          (Sample.post Sample.jo))))
     = [ Handler.notification Sample.env_no_template Sample.jo;
         Handler.auto_reply Sample.env_no_template Sample.jo ]
  /\ answer (run (Handler.handler Sample.accepting Sample.env_no_template
                    (Sample.post Sample.jo)))
     = (200, Some (Json (JObj [(js "success", JBool true)])))
  /\ EMAILJS_PRIVATE_KEY Sample.env_no_key = Undefined
  /\ calls (trace (run (HandlerDoc.handler Sample.refusing Sample.env_no_key
                          (Sample.post Sample.jo))))
     = [ HandlerDoc.notification Sample.env_no_key Sample.jo ]
  /\ answer (run (HandlerDoc.handler Sample.refusing Sample.env_no_key
                    (Sample.post Sample.jo)))
     = (500, Some (Json (JObj [(js "error",
          JStr (js "Failed to send email. Please try again."))]))).
Proof.
  repeat split; vm_compute; reflexivity.
Qed.

(** C5, as the code has it.  A submission (a POST request) reaches the email
    API only if [name], [email] and [message] are present and not empty, as
    received; otherwise it is rejected with status 400 before any outbound
    call.  With the credentials in place every such submission is sent,
    whatever its email address.  The documented variant rejects in the same
    way a submission whose email address does not have the shape
    [local@domain.tld]. *)
Theorem partial_submission_is_rejected api env req :
  method req = js "POST" ->
  let b := body_or_empty (req_body req) in
  let w := run (Handler.handler api env req) in
  let w' := run (HandlerDoc.handler api env req) in
  (~ complete b -> statusCode (res w) = 400 /\ calls (trace w) = [])
  /\ (calls (trace w) <> [] -> complete b)
  /\ (complete b -> credentials env ->
      hd_error (calls (trace w)) = Some (Handler.notification env b))
  /\ (~ (complete b /\ Regex.local_domain_tld (to_string (email b))) ->
      statusCode (res w') = 400 /\ calls (trace w') = [])
  /\ (calls (trace w') <> [] ->
      complete b /\ Regex.local_domain_tld (to_string (email b))).
Proof.
  intros Hm. cbv zeta.
  assert (R1 : ~ complete (body_or_empty (req_body req)) ->
               statusCode (res (run (Handler.handler api env req))) = 400
               /\ calls (trace (run (Handler.handler api env req))) = []).
  { intros Hb. destruct (Handler_incomplete api env req Hm Hb) as [T A].
    rewrite T. split; [exact (f_equal fst A) | reflexivity]. }
  assert (R2 : ~ (complete (body_or_empty (req_body req))
                  /\ Regex.local_domain_tld
                       (to_string (email (body_or_empty (req_body req))))) ->
               statusCode (res (run (HandlerDoc.handler api env req))) = 400
               /\ calls (trace (run (HandlerDoc.handler api env req))) = []).
  { intros Hv.
    destruct (falsy (name (body_or_empty (req_body req)))
              || falsy (email (body_or_empty (req_body req)))
              || falsy (message (body_or_empty (req_body req)))) eqn:Hb.
    - destruct (HandlerDoc_incomplete api env req Hm) as [T A].
      + rewrite <- complete_guard. congruence.
      + rewrite T. split; [exact (f_equal fst A) | reflexivity].
    - apply complete_guard in Hb.
      destruct (HandlerDoc_invalid_email api env req Hm Hb) as [T A].
      + apply not_true_is_false. rewrite emailRegex_shape. tauto.
      + rewrite T. split; [exact (f_equal fst A) | reflexivity]. }
  split; [exact R1 | ]. split; [ | split; [ | split; [exact R2 | ] ] ].
  - intros Hc.
    destruct (falsy (name (body_or_empty (req_body req)))
              || falsy (email (body_or_empty (req_body req)))
              || falsy (message (body_or_empty (req_body req)))) eqn:Hb.
    + destruct R1 as [_ E]; [ | contradiction].
      rewrite <- complete_guard. congruence.
    + now apply complete_guard.
  - intros Hb He. destruct req as [m [b | ]]; simpl in Hm, Hb |- *; subst m.
    + now apply Handler_first_call.
    + destruct Hb as ((s & E & _) & _). discriminate.
  - intros Hc.
    destruct (falsy (name (body_or_empty (req_body req)))
              || falsy (email (body_or_empty (req_body req)))
              || falsy (message (body_or_empty (req_body req)))) eqn:Hb.
    + destruct R2 as [_ E]; [ | contradiction].
      rewrite <- complete_guard. intros [Hb' _]. congruence.
    + apply complete_guard in Hb. split; [exact Hb | ].
      destruct (Regex.test Regex.emailRegex
                  (to_string (email (body_or_empty (req_body req))))) eqn:Hr.
      * now apply emailRegex_shape.
      * destruct R2 as [_ E]; [ | contradiction].
        rewrite <- emailRegex_shape. intros [_ Hr']. congruence.
Qed.

Lemma partial_submission_is_rejected_witness :
  method (Sample.post Sample.nameless) = js "POST"
  /\ statusCode (res (run (Handler.handler Sample.accepting Sample.env_full
                            (Sample.post Sample.nameless)))) = 400
  /\ calls (trace (run (Handler.handler Sample.accepting Sample.env_full
                          (Sample.post Sample.nameless)))) = [].
Proof.
  split; [reflexivity | ].
  destruct (partial_submission_is_rejected Sample.accepting Sample.env_full
              (Sample.post Sample.nameless) eq_refl) as [R _].
  apply R. intros ((s & E & H) & _). injection E as <-. now apply H.
Defined.

(** C5 as stated fails.  The handler sends a submission whose email address
    has no [@]; and both the handler and its documented variant send one
    whose name is a single space, which trimming would leave empty. *)
Lemma unvalidated_submission_reaches_the_provider :
  Regex.test Regex.emailRegex (to_string (email Sample.jo_at_nowhere)) = false
  /\ calls (trace (run (Handler.handler Sample.accepting Sample.env_full
                          (Sample.post Sample.jo_at_nowhere))))
     = [ Handler.notification Sample.env_full Sample.jo_at_nowhere;
         Handler.auto_reply Sample.env_full Sample.jo_at_nowhere ]
  /\ trim (to_string (name Sample.blank_name)) = []
  /\ calls (trace (run (Handler.handler Sample.accepting Sample.env_full
                          (Sample.post Sample.blank_name))))
     = [ Handler.notification Sample.env_full Sample.blank_name;
         Handler.auto_reply Sample.env_full Sample.blank_name ]
  /\ List.length (calls (trace (run (HandlerDoc.handler Sample.accepting Sample.env_full
                                       (Sample.post Sample.blank_name))))) = 2%nat.
Proof.
  repeat split; vm_compute; reflexivity.
Qed.

(** C10, as the code has it.  [buildAutoReplyHtml] puts the name, as it is,
    between the fixed pieces of the page at its two [${name}] places, and the
    subject, as it is, at [${displaySubject}], or [your message] when the
    subject is empty or absent.  The documented variant has a third place,
    which holds the name up to its first space. *)
Theorem autoreply_page_embeds_name_and_subject name :
  (forall c s,
     Handler.buildAutoReplyHtml (Str name) (Str (c :: s))
     = Handler.mail_top ++ name ++ Handler.mail_greeting ++ name
       ++ Handler.mail_thanks ++ (c :: s) ++ Handler.mail_rest)
  /\ (forall subject,
       subject = Str [] \/ subject = Undefined ->
       Handler.buildAutoReplyHtml (Str name) subject
       = Handler.mail_top ++ name ++ Handler.mail_greeting ++ name
         ++ Handler.mail_thanks ++ js "your message" ++ Handler.mail_rest)
  /\ (forall c s w,
       HandlerDoc.buildAutoReplyHtml (Str name) (Str (c :: s)) w
       = (Return (HandlerDoc.mail_top ++ name ++ HandlerDoc.mail_greeting ++ name
                  ++ HandlerDoc.mail_thanks ++ (c :: s) ++ HandlerDoc.mail_next
                  ++ split_first name ++ HandlerDoc.mail_rest), w))
  /\ (forall subject w,
       subject = Str [] \/ subject = Undefined ->
       HandlerDoc.buildAutoReplyHtml (Str name) subject w
       = (Return (HandlerDoc.mail_top ++ name ++ HandlerDoc.mail_greeting ++ name
                  ++ HandlerDoc.mail_thanks ++ js "your message" ++ HandlerDoc.mail_next
                  ++ split_first name ++ HandlerDoc.mail_rest), w)).
Proof.
  split; [ | split; [ | split ] ].
  - intros c s. reflexivity.
  - intros subject [-> | ->]; reflexivity.
  - intros c s w. apply HandlerDoc_page.
  - intros subject w [-> | ->]; apply HandlerDoc_page.
Qed.

(** C10 as stated fails on the documented variant: for the name [Jo Li] its
    third place holds [Jo], not the name. *)
Lemma first_name_only_in_documented_page :
  exists page,
    HandlerDoc.buildAutoReplyHtml (Str (js "Jo Li")) (Str []) start = (Return page, start)
    /\ page = HandlerDoc.mail_top ++ js "Jo Li" ++ HandlerDoc.mail_greeting ++ js "Jo Li"
              ++ HandlerDoc.mail_thanks ++ js "your message" ++ HandlerDoc.mail_next
              ++ js "Jo" ++ HandlerDoc.mail_rest
    /\ page <> HandlerDoc.mail_top ++ js "Jo Li" ++ HandlerDoc.mail_greeting ++ js "Jo Li"
               ++ HandlerDoc.mail_thanks ++ js "your message" ++ HandlerDoc.mail_next
               ++ js "Jo Li" ++ HandlerDoc.mail_rest.
Proof.
  eexists. split; [apply HandlerDoc_page | ]. split; [reflexivity | ].
  intros H. apply (f_equal (@List.length code_unit)) in H.
  vm_compute in H. discriminate.
Qed.

End HandlerClaims.

(* ================================================================== *)
(** * The form client against its specification *)
(* ================================================================== *)

Section ClientClaims.

Import JS Dom ClientTerms.
Local Open Scope N_scope.

Lemma falsy_Str s : falsy (Str s) = false <-> s <> [].
Proof.
  unfold falsy. destruct s; simpl; split; congruence.
Qed.

(** The check of the required fields in both clients. *)
Lemma required_guard f :
  trim (name_value f) <> [] -> trim (email_value f) <> [] ->
  trim (message_value f) <> [] ->
  falsy (Str (trim (name_value f))) || falsy (Str (trim (email_value f)))
  || falsy (Str (trim (message_value f))) = false.
Proof.
  intros Hn He Hm. apply falsy_Str in Hn, He, Hm. now rewrite Hn, He, Hm.
Qed.

(** What the posting client does with a valid form, up to its [await]. *)
Lemma Client_begin_valid p :
  valid (inputs p) ->
  Client.submit_begin p =
  (send (Post (js "/api/contact")
           {| req_method := js "POST";
              req_headers := [(js "Content-Type", js "application/json")];
              req_json := submission (inputs p) |})
     (set_button {| innerHTML := html "<i class=`fas fa-spinner fa-spin`></i> Sending...";
                    disabled := true;
                    background := background (submitBtn p) |} p),
   Some {| Client.originalHTML := innerHTML (submitBtn p);
           Client.posted := {| req_method := js "POST";
                               req_headers := [(js "Content-Type", js "application/json")];
                               req_json := submission (inputs p) |} |}).
Proof.
  intros (Hn & He & Hm & Hr). unfold Client.submit_begin.
  rewrite (required_guard _ Hn He Hm).
  apply emailRegex_shape in Hr. rewrite Hr. reflexivity.
Qed.

(** What either client does with a form whose email address is malformed. *)
Lemma Client_begin_malformed p :
  trim (name_value (inputs p)) <> [] -> trim (email_value (inputs p)) <> [] ->
  trim (message_value (inputs p)) <> [] ->
  ~ Regex.local_domain_tld (trim (email_value (inputs p))) ->
  Client.submit_begin p =
  (showToast (JStr (js "Please enter a valid email address.")) (js "error") p, None).
Proof.
  intros Hn He Hm Hr. unfold Client.submit_begin.
  rewrite (required_guard _ Hn He Hm).
  rewrite <- emailRegex_shape in Hr. apply not_true_is_false in Hr.
  rewrite Hr. reflexivity.
Qed.

(** Settling never touches the calls that were issued. *)
Lemma Client_settle_network h o p :
  network (Client.submit_settle h o p) = network p.
Proof.
  unfold Client.submit_settle, Client.unreachable.
  destruct o as [ | status [ [ | | | | | ] | ] ]; try reflexivity;
    destruct (Http.ok status && json_truthy _); reflexivity.
Qed.

(** After a failed submission, on whatever the page has become by then: the
    control carries the label it had at submit time again and is enabled; the
    fields are as they were; the one new timer removes the error toast. *)
Lemma Client_settle_failed h o p :
  failed o ->
  let p' := Client.submit_settle h o p in
  innerHTML (submitBtn p') = h
  /\ disabled (submitBtn p') = false
  /\ inputs p' = inputs p
  /\ timers p' = timers p ++ [(5000, RemoveToast (made p))]
  /\ exists msg, shown p' = Some (made p, {| toast_message := msg;
                                             toast_type := js "error" |}).
Proof.
  intros F. cbv zeta. unfold Client.submit_settle, Client.unreachable.
  assert (U : forall q, q = set_button
                {| innerHTML := h; disabled := false;
                   background := background (submitBtn p) |}
                (showToast (JStr (js "Could not reach the server. Please check your connection."))
                   (js "error") p) ->
              innerHTML (submitBtn q) = h /\ disabled (submitBtn q) = false
              /\ inputs q = inputs p
              /\ timers q = timers p ++ [(5000, RemoveToast (made p))]
              /\ exists msg, shown q = Some (made p, {| toast_message := msg;
                                                       toast_type := js "error" |})).
  { intros q ->. repeat split. eexists. reflexivity. }
  destruct F as [-> | (status & data & -> & F)]; [now apply U | ].
  destruct data as [d | ]; [ | now apply U].
  assert (G : Http.ok status && json_truthy (get d (js "success")) = false).
  { destruct F as [F | [F | (d' & E & F)]].
    - now rewrite F.
    - discriminate.
    - injection E as <-. rewrite F. apply andb_false_r. }
  destruct d; try (now apply U); rewrite G; repeat split; eexists; reflexivity.
Qed.

(** C8.  When a submission fails, be it that the server answers with an
    error or that the request never completes, the submit control is
    restored at once to its original label and enabled, the fields keep what
    the visitor entered, and nothing is scheduled that would reset them. *)
Theorem failed_submission_restores_the_control srv p :
  valid (inputs p) ->
  failed (srv {| req_method := js "POST";
                 req_headers := [(js "Content-Type", js "application/json")];
                 req_json := submission (inputs p) |}) ->
  let p' := Client.submit srv p in
  innerHTML (submitBtn p') = innerHTML (submitBtn p)
  /\ disabled (submitBtn p') = false
  /\ inputs p' = inputs p
  /\ timers p' = timers p ++ [(5000, RemoveToast (made p))]
  /\ exists msg, shown p' = Some (made p, {| toast_message := msg;
                                             toast_type := js "error" |}).
Proof.
  intros V F. cbv zeta. unfold Client.submit.
  rewrite (Client_begin_valid p V). cbn [Client.originalHTML Client.posted].
  exact (Client_settle_failed _ _ (send _ (set_button _ p)) F).
Qed.

Lemma failed_submission_restores_the_control_witness :
  valid (inputs (Sample.fresh_page Sample.form_jo))
  /\ innerHTML (submitBtn (Client.submit (fun _ => Client.Unreachable)
                             (Sample.fresh_page Sample.form_jo)))
     = js "Send Message"
  /\ disabled (submitBtn (Client.submit (fun _ => Client.Unreachable)
                            (Sample.fresh_page Sample.form_jo))) = false
  /\ inputs (Client.submit (fun _ => Client.Unreachable)
               (Sample.fresh_page Sample.form_jo)) = Sample.form_jo.
Proof.
  assert (V : valid (inputs (Sample.fresh_page Sample.form_jo))).
  { repeat split; try (vm_compute; discriminate).
    apply emailRegex_shape. vm_compute. reflexivity. }
  split; [exact V | ].
  destruct (failed_submission_restores_the_control (fun _ => Client.Unreachable)
              (Sample.fresh_page Sample.form_jo) V) as (L & D & I & _).
  - left. reflexivity.
  - split; [exact L | ]. split; [exact D | exact I].
Defined.

(** What the SDK client sends for a valid form: the notification, and the
    auto-reply if the notification went through. *)
Lemma ClientSdk_valid emailjs p :
  valid (inputs p) ->
  let params := ClientSdk.templateParams
                  (trim (name_value (inputs p))) (trim (email_value (inputs p)))
                  (trim (subject_value (inputs p))) (trim (message_value (inputs p))) in
  network (ClientSdk.submit emailjs p) =
  network p
  ++ EmailjsSend ClientSdk.EMAILJS_SERVICE_ID ClientSdk.NOTIFICATION_TEMPLATE_ID params
     :: (if emailjs 0%nat
         then [EmailjsSend ClientSdk.EMAILJS_SERVICE_ID ClientSdk.AUTOREPLY_TEMPLATE_ID params]
         else []).
Proof.
  intros (Hn & He & Hm & Hr). cbv zeta. unfold ClientSdk.submit.
  rewrite (required_guard _ Hn He Hm).
  apply emailRegex_shape in Hr. rewrite Hr. cbn [negb].
  destruct (emailjs 0%nat); cbn [negb]; [ | reflexivity].
  destruct (emailjs 1%nat); cbn [negb]; cbn; now rewrite <- app_assoc.
Qed.

Lemma ClientSdk_malformed emailjs p :
  trim (name_value (inputs p)) <> [] -> trim (email_value (inputs p)) <> [] ->
  trim (message_value (inputs p)) <> [] ->
  ~ Regex.local_domain_tld (trim (email_value (inputs p))) ->
  ClientSdk.submit emailjs p =
  showToast (JStr (js "Please enter a valid email address.")) (js "error") p.
Proof.
  intros Hn He Hm Hr. unfold ClientSdk.submit.
  rewrite (required_guard _ Hn He Hm).
  rewrite <- emailRegex_shape in Hr. apply not_true_is_false in Hr.
  rewrite Hr. reflexivity.
Qed.

Lemma fetches_app l1 l2 : fetches (l1 ++ l2) = fetches l1 ++ fetches l2.
Proof.
  induction l1 as [ | [u i | s t ps] l1 IH ]; simpl; [reflexivity | | exact IH].
  now rewrite IH.
Qed.

(** C6, as the code has it.  For a form whose trimmed name, email and message
    are not empty and whose trimmed email has the shape [local@domain.tld],
    the client that talks to the handler issues exactly one call: a POST to
    [/api/contact] with the header [Content-Type: application/json] and a
    JSON body with the keys [name], [email], [subject], [message], whose
    values are the trimmed fields.  The client that uses the EmailJS SDK
    issues no [fetch]; it hands the SDK the trimmed fields as the template
    parameters [from_name], [from_email], [reply_to], [subject]
    ([(No subject)] when empty) and [message]: first for the notification
    template and then, only if that send resolves, for the auto-reply
    template, and never again. *)
Theorem valid_form_is_posted_once srv emailjs p :
  valid (inputs p) ->
  network (Client.submit srv p) =
    network p
    ++ [ Post (js "/api/contact")
           {| req_method := js "POST";
              req_headers := [(js "Content-Type", js "application/json")];
              req_json := JObj [ (js "name", JStr (trim (name_value (inputs p))));
                                 (js "email", JStr (trim (email_value (inputs p))));
                                 (js "subject", JStr (trim (subject_value (inputs p))));
                                 (js "message", JStr (trim (message_value (inputs p)))) ] |} ]
  /\ fetches (network (ClientSdk.submit emailjs p)) = fetches (network p)
  /\ (let params :=
         [ (js "from_name", trim (name_value (inputs p)));
           (js "from_email", trim (email_value (inputs p)));
           (js "reply_to", trim (email_value (inputs p)));
           (js "subject",
              match trim (subject_value (inputs p)) with
              | [] => js "(No subject)"
              | s => s
              end);
           (js "message", trim (message_value (inputs p))) ] in
      network (ClientSdk.submit emailjs p) =
        network p
        ++ EmailjsSend ClientSdk.EMAILJS_SERVICE_ID ClientSdk.NOTIFICATION_TEMPLATE_ID params
           :: (if emailjs 0%nat
               then [ EmailjsSend ClientSdk.EMAILJS_SERVICE_ID
                        ClientSdk.AUTOREPLY_TEMPLATE_ID params ]
               else [])).
Proof.
  intros V. split; [ | split].
  - unfold Client.submit. rewrite (Client_begin_valid p V).
    cbn [Client.originalHTML Client.posted]. rewrite Client_settle_network. reflexivity.
  - rewrite (ClientSdk_valid emailjs p V), fetches_app.
    destruct (emailjs 0%nat); simpl; apply app_nil_r.
  - cbv zeta. rewrite (ClientSdk_valid emailjs p V).
    unfold ClientSdk.templateParams.
    destruct (trim (subject_value (inputs p))); reflexivity.
Qed.

Lemma valid_form_is_posted_once_witness :
  valid (inputs (Sample.fresh_page Sample.form_jo))
  /\ network (Client.submit (fun _ => Client.Unreachable) (Sample.fresh_page Sample.form_jo))
     = [ Post (js "/api/contact")
           {| req_method := js "POST";
              req_headers := [(js "Content-Type", js "application/json")];
              req_json := JObj [ (js "name", JStr (js "Jo"));
                                 (js "email", JStr (js "jo@x.com"));
                                 (js "subject", JStr []);
                                 (js "message", JStr (js "Hi")) ] |} ]
  /\ network (ClientSdk.submit (fun _ => false) (Sample.fresh_page Sample.form_jo))
     = [ EmailjsSend (js "YOUR_SERVICE_ID") (js "YOUR_NOTIFICATION_TEMPLATE_ID")
           [ (js "from_name", js "Jo"); (js "from_email", js "jo@x.com");
             (js "reply_to", js "jo@x.com"); (js "subject", js "(No subject)");
             (js "message", js "Hi") ] ].
Proof.
  assert (V : valid (inputs (Sample.fresh_page Sample.form_jo))).
  { repeat split; try (vm_compute; discriminate).
    apply emailRegex_shape. vm_compute. reflexivity. }
  split; [exact V | ].
  destruct (valid_form_is_posted_once (fun _ => Client.Unreachable) (fun _ => false)
              (Sample.fresh_page Sample.form_jo) V) as (N & _ & S).
  split; [exact N | ].
  cbv zeta in S. rewrite S. vm_compute. reflexivity.
Defined.

(** C6 as stated fails on the client of [src/js/contact.js]: for a valid
    form it posts nothing to the submission endpoint, and calls the SDK
    twice. *)
Lemma sdk_client_posts_nothing :
  posts_to (js "/api/contact")
    (network (ClientSdk.submit (fun _ => true) (Sample.fresh_page Sample.form_jo))) = []
  /\ fetches (network (ClientSdk.submit (fun _ => true)
                         (Sample.fresh_page Sample.form_jo))) = []
  /\ network (ClientSdk.submit (fun _ => true) (Sample.fresh_page Sample.form_jo))
     = [ EmailjsSend (js "YOUR_SERVICE_ID") (js "YOUR_NOTIFICATION_TEMPLATE_ID")
           [ (js "from_name", js "Jo"); (js "from_email", js "jo@x.com");
             (js "reply_to", js "jo@x.com"); (js "subject", js "(No subject)");
             (js "message", js "Hi") ];
         EmailjsSend (js "YOUR_SERVICE_ID") (js "YOUR_AUTOREPLY_TEMPLATE_ID")
           [ (js "from_name", js "Jo"); (js "from_email", js "jo@x.com");
             (js "reply_to", js "jo@x.com"); (js "subject", js "(No subject)");
             (js "message", js "Hi") ] ].
Proof.
  repeat split; vm_compute; reflexivity.
Qed.

(** C7.  With the name and the message filled in, an email address that is
    not empty and does not have the shape [local@domain.tld] stops either
    client before any call: the page only gains the toast that asks for a
    valid address.  A request goes out exactly when the address has the
    shape. *)
Theorem malformed_email_is_not_sent srv emailjs p :
  trim (name_value (inputs p)) <> [] -> trim (email_value (inputs p)) <> [] ->
  trim (message_value (inputs p)) <> [] ->
  (~ Regex.local_domain_tld (trim (email_value (inputs p))) ->
     Client.submit srv p
       = showToast (JStr (js "Please enter a valid email address.")) (js "error") p
     /\ network (Client.submit srv p) = network p
     /\ ClientSdk.submit emailjs p
       = showToast (JStr (js "Please enter a valid email address.")) (js "error") p
     /\ network (ClientSdk.submit emailjs p) = network p)
  /\ (Regex.local_domain_tld (trim (email_value (inputs p))) <->
      exists q, snd (Client.submit_begin p) = Some q)
  /\ (Regex.local_domain_tld (trim (email_value (inputs p))) <->
      network (ClientSdk.submit emailjs p) <> network p).
Proof.
  intros Hn He Hm.
  assert (D : Regex.local_domain_tld (trim (email_value (inputs p)))
              \/ ~ Regex.local_domain_tld (trim (email_value (inputs p)))).
  { rewrite <- emailRegex_shape.
    destruct (Regex.test Regex.emailRegex (trim (email_value (inputs p))));
      [left; reflexivity | right; discriminate]. }
  assert (R : ~ Regex.local_domain_tld (trim (email_value (inputs p))) ->
              Client.submit srv p
                = showToast (JStr (js "Please enter a valid email address.")) (js "error") p
              /\ network (Client.submit srv p) = network p
              /\ ClientSdk.submit emailjs p
                = showToast (JStr (js "Please enter a valid email address.")) (js "error") p
              /\ network (ClientSdk.submit emailjs p) = network p).
  { intros Hr. unfold Client.submit.
    rewrite (Client_begin_malformed p Hn He Hm Hr),
            (ClientSdk_malformed emailjs p Hn He Hm Hr).
    repeat split. }
  split; [exact R | split]; split.
  - intros Hr. rewrite (Client_begin_valid p (conj Hn (conj He (conj Hm Hr)))).
    eexists. reflexivity.
  - intros (q & E). destruct D as [Hr | Hr]; [exact Hr | ].
    rewrite (Client_begin_malformed p Hn He Hm Hr) in E. discriminate.
  - intros Hr E.
    rewrite (ClientSdk_valid emailjs p (conj Hn (conj He (conj Hm Hr)))) in E.
    apply (f_equal (@List.length outgoing)) in E.
    rewrite length_app in E. simpl in E. lia.
  - intros E. destruct D as [Hr | Hr]; [exact Hr | ].
    destruct (R Hr) as (_ & _ & _ & N). contradiction.
Qed.

Lemma malformed_email_is_not_sent_witness :
  ~ Regex.local_domain_tld (trim (email_value (inputs (Sample.fresh_page Sample.form_bad_email))))
  /\ network (Client.submit (fun _ => Client.Unreachable)
                (Sample.fresh_page Sample.form_bad_email)) = []
  /\ shown (Client.submit (fun _ => Client.Unreachable)
              (Sample.fresh_page Sample.form_bad_email))
     = Some (0%nat, {| toast_message := JStr (js "Please enter a valid email address.");
                       toast_type := js "error" |}).
Proof.
  assert (B : ~ Regex.local_domain_tld
                (trim (email_value (inputs (Sample.fresh_page Sample.form_bad_email))))).
  { rewrite <- emailRegex_shape. vm_compute. discriminate. }
  split; [exact B | ].
  destruct (malformed_email_is_not_sent (fun _ => Client.Unreachable) (fun _ => true)
              (Sample.fresh_page Sample.form_bad_email)) as [R _];
    try (vm_compute; discriminate).
  destruct (R B) as (S & N & _). split; [exact N | ]. rewrite S. reflexivity.
Defined.

End ClientClaims.

(* ================================================================== *)
(** * Further properties of the handler *)
(* ================================================================== *)

Section HandlerMore.

Import JS Http HandlerTerms MoreTerms.
Local Open Scope N_scope.

Arguments Handler.buildAutoReplyHtml : simpl never.
Arguments HandlerDoc.buildAutoReplyHtml : simpl never.
Arguments dec : simpl never.

(** One step of a symbolic run of either handler: the next thing that the
    run depends on is taken apart. *)
Ltac step_run api :=
  match goal with
  | |- context [HandlerDoc.buildAutoReplyHtml ?n ?s ?w0] =>
      let Fr := fresh "Fr" in
      pose proof (HandlerDoc_page_frame n s w0) as Fr;
      destruct (HandlerDoc.buildAutoReplyHtml n s w0) as [[? | ?] ?];
      cbn in Fr; subst
  | |- context [match api ?n ?p with _ => _ end] => destruct (api n p) as [? | ? [? | ?]]
  | |- context [if ok ?st then _ else _] => destruct (ok st) eqn:?
  | |- context [if negb (ok ?st) then _ else _] => destruct (ok st) eqn:?
  end; cbn.

(** X1.  A request whose method is not POST is never processed, by either
    variant of the handler: nothing is logged or sent; a preflight (OPTIONS)
    is answered with 200 and an empty body, any other method with 405 and
    [{error: "Method Not Allowed"}], whatever the body and the environment. *)
Theorem other_methods_are_not_processed api env req :
  method req <> js "POST" ->
  let w := run (Handler.handler api env req) in
  let w' := run (HandlerDoc.handler api env req) in
  trace w = [] /\ w' = w
  /\ (method req = js "OPTIONS" -> answer w = (200, Some End_))
  /\ (method req <> js "OPTIONS" ->
      answer w = (405, Some (Json (JObj [(js "error", JStr (js "Method Not Allowed"))])))).
Proof.
  intros Hm. destruct req as [m ob]. cbn [method] in *. cbv zeta.
  unfold run, Handler.handler, HandlerDoc.handler. cbn [method req_body].
  destruct (str_eqb m (js "OPTIONS")) eqn:E1.
  - apply str_eqb_eq in E1. cbn.
    split; [reflexivity | ]. split; [reflexivity | ].
    split; [reflexivity | contradiction].
  - destruct (str_eqb m (js "POST")) eqn:E2.
    + apply str_eqb_eq in E2. contradiction.
    + cbn. split; [reflexivity | ]. split; [reflexivity | ].
      split; [ | reflexivity].
      intros E. apply str_eqb_eq in E.
      change (str_eqb m (js "OPTIONS") = true) in E. congruence.
Qed.

Lemma other_methods_are_not_processed_witness :
  js "GET" <> js "POST"
  /\ trace (run (Handler.handler Sample.accepting Sample.env_full
                   {| method := js "GET"; req_body := Some Sample.jo |})) = []
  /\ answer (run (Handler.handler Sample.accepting Sample.env_full
                    {| method := js "GET"; req_body := Some Sample.jo |}))
     = (405, Some (Json (JObj [(js "error", JStr (js "Method Not Allowed"))]))).
Proof.
  assert (G : js "GET" <> js "POST") by (vm_compute; discriminate).
  split; [exact G | ].
  destruct (other_methods_are_not_processed Sample.accepting Sample.env_full
              {| method := js "GET"; req_body := Some Sample.jo |} G)
    as (T & _ & _ & A).
  split; [exact T | ]. apply A. vm_compute. discriminate.
Defined.

(** X2.  Whatever the request, the environment and the provider, an
    invocation of either variant ends with exactly the three CORS headers
    set and with an answer sent: no path, the [catch] block included, leaves
    the request unanswered. *)
Theorem every_answer_carries_the_cors_headers api env req :
  (headers (res (run (Handler.handler api env req))) = cors
   /\ exists body, reply (res (run (Handler.handler api env req))) = Some body)
  /\ (headers (res (run (HandlerDoc.handler api env req))) = cors
      /\ exists body, reply (res (run (HandlerDoc.handler api env req))) = Some body).
Proof.
  destruct req as [m ob]. split.
  - unfold run, Handler.handler. cbn [method req_body].
    destruct (str_eqb m (js "OPTIONS")); [split; [reflexivity | eexists; reflexivity] | ].
    destruct (str_eqb m (js "POST")); [ | split; [reflexivity | eexists; reflexivity]].
    cbn.
    destruct (falsy _ || falsy _ || falsy _); [split; [reflexivity | eexists; reflexivity] | ].
    destruct (falsy _ || falsy _ || falsy _); [split; [reflexivity | eexists; reflexivity] | ].
    unfold try_catch, Handler.send_both, Handler.sendEmail, bind, fetch; cbn.
    repeat step_run api; (split; [reflexivity | eexists; reflexivity]).
  - unfold run, HandlerDoc.handler. cbn [method req_body].
    destruct (str_eqb m (js "OPTIONS")); [split; [reflexivity | eexists; reflexivity] | ].
    destruct (str_eqb m (js "POST")); [ | split; [reflexivity | eexists; reflexivity]].
    cbn -[Regex.test Regex.emailRegex].
    destruct (falsy _ || falsy _ || falsy _); [split; [reflexivity | eexists; reflexivity] | ].
    destruct (Regex.test _ _); [ | split; [reflexivity | eexists; reflexivity]].
    unfold try_catch, HandlerDoc.send_both, HandlerDoc.sendEmail, bind, fetch; cbn.
    repeat step_run api; (split; [reflexivity | eexists; reflexivity]).
Qed.

(** Every way in which an invocation of the handler can go. *)
Lemma Handler_outcomes api env req :
  let w := run (Handler.handler api env req) in
  (trace w = []
   /\ (answer w = (200, Some End_)
       \/ answer w = (405, Some (Json (JObj [(js "error", JStr (js "Method Not Allowed"))])))
       \/ answer w = (400, Some (Json (JObj [(js "error",
                         JStr (js "Name, email and message are required."))])))))
  \/ (calls (trace w) = []
      /\ answer w = (500, Some (Json (JObj [(js "error",
            JStr (js "Server misconfiguration — missing environment variables."))]))))
  \/ exists b,
       req = {| method := js "POST"; req_body := Some b |}
       /\ complete b /\ credentials env
       /\ ((fails (api 0%nat (Handler.notification env b))
            /\ calls (trace w) = [Handler.notification env b]
            /\ answer w = (500, Some (Json (JObj
                 [ (js "error", JStr (js "Failed to send email. Please try again."));
                   (js "details",
                    JStr (failure_message (api 0%nat (Handler.notification env b)))) ]))))
           \/ (succeeds (api 0%nat (Handler.notification env b))
               /\ fails (api 1%nat (Handler.auto_reply env b))
               /\ calls (trace w) = [Handler.notification env b; Handler.auto_reply env b]
               /\ answer w = (500, Some (Json (JObj
                    [ (js "error", JStr (js "Failed to send email. Please try again."));
                      (js "details",
                       JStr (failure_message (api 1%nat (Handler.auto_reply env b)))) ]))))
           \/ (succeeds (api 0%nat (Handler.notification env b))
               /\ succeeds (api 1%nat (Handler.auto_reply env b))
               /\ calls (trace w) = [Handler.notification env b; Handler.auto_reply env b]
               /\ answer w = (200, Some (Json (JObj [(js "success", JBool true)]))))).
Proof.
  cbv zeta.
  destruct (list_eq_dec N.eq_dec (method req) (js "POST")) as [Hm | Hm].
  2:{ left. destruct (Handler_other_method api env req Hm) as [T [A | A]]; auto. }
  destruct (falsy (name (body_or_empty (req_body req)))
            || falsy (email (body_or_empty (req_body req)))
            || falsy (message (body_or_empty (req_body req)))) eqn:Hb.
  { left. destruct (Handler_incomplete api env req Hm) as [T A]; [ | auto].
    rewrite <- complete_guard. congruence. }
  apply complete_guard in Hb.
  destruct (falsy (EMAILJS_SERVICE_ID env) || falsy (EMAILJS_PUBLIC_KEY env)
            || falsy (EMAILJS_PRIVATE_KEY env)) eqn:He.
  { right. left. apply (Handler_misconfigured api env req Hm Hb).
    rewrite <- !falsy_absent_or_empty, <- !orb_true_iff, orb_assoc. exact He. }
  apply credentials_guard in He.
  destruct req as [m [b | ]]; simpl in Hm, Hb; subst m;
    [ | destruct Hb as ((s & E & _) & _); discriminate ].
  right. right. exists b. split; [reflexivity | ]. do 2 (split; [assumption | ]).
  destruct (fails_or_succeeds (api 0%nat (Handler.notification env b))) as [F1 | S1].
  { left. split; [exact F1 | ]. now apply Handler_first_fails. }
  destruct (fails_or_succeeds (api 1%nat (Handler.auto_reply env b))) as [F2 | S2].
  { right. left. do 2 (split; [assumption | ]). now apply Handler_second_fails. }
  right. right. do 2 (split; [assumption | ]).
  destruct S1 as (st1 & t1 & E1 & O1), S2 as (st2 & t2 & E2 & O2).
  destruct (Handler_both_succeed api env b st1 t1 st2 t2 Hb He E1 O1 E2 O2) as [T A].
  rewrite T. split; [reflexivity | exact A].
Qed.

(** X3.  When the notification has gone through and the auto-reply fails,
    both calls have been made and nothing follows them: the answer is 500
    with the generic message and the text of the second failure, although the
    owner's notification has been accepted by the provider. *)
Theorem second_failure_comes_after_the_notification api env req b :
  method req = js "POST" -> req_body req = Some b ->
  complete b -> credentials env ->
  succeeds (api 0%nat (Handler.notification env b)) ->
  fails (api 1%nat (Handler.auto_reply env b)) ->
  let w := run (Handler.handler api env req) in
  (exists log errs,
     trace w = [ posted (Handler.notification env b);
                 Settled (api 0%nat (Handler.notification env b));
                 ConsoleLog log;
                 posted (Handler.auto_reply env b);
                 Settled (api 1%nat (Handler.auto_reply env b)) ] ++ errs
     /\ calls errs = [])
  /\ answer w = (500, Some (Json (JObj
        [ (js "error", JStr (js "Failed to send email. Please try again."));
          (js "details",
           JStr (failure_message (api 1%nat (Handler.auto_reply env b)))) ]))).
Proof.
  intros Hm Hr Hb He (st1 & t1 & E1 & O1) F.
  destruct req as [m ob]. simpl in Hm, Hr. subst m ob. cbv zeta.
  apply complete_guard in Hb. apply credentials_guard in He. enter_try Hb He.
  rewrite E1; cbn. rewrite O1; cbn.
  inversion F as [msg E | status msg E | status bd Hok E]; cbn.
  - split; [do 2 eexists; split; reflexivity | reflexivity].
  - split; [do 2 eexists; split; reflexivity | reflexivity].
  - destruct bd as [t | msg]; cbn; rewrite ?Hok; cbn;
      (split; [do 2 eexists; split; reflexivity | reflexivity]).
Qed.

Lemma second_failure_comes_after_the_notification_witness :
  succeeds (MoreSample.second_down 0%nat (Handler.notification Sample.env_full Sample.jo))
  /\ fails (MoreSample.second_down 1%nat (Handler.auto_reply Sample.env_full Sample.jo))
  /\ answer (run (Handler.handler MoreSample.second_down Sample.env_full (Sample.post Sample.jo)))
     = (500, Some (Json (JObj
          [ (js "error", JStr (js "Failed to send email. Please try again."));
            (js "details", JStr (js "fetch failed")) ]))).
Proof.
  assert (Hn : forall s, s <> [] -> non_empty (Str s)) by (intros s H; now exists s).
  assert (S : succeeds (MoreSample.second_down 0%nat
                          (Handler.notification Sample.env_full Sample.jo)))
    by (exists 200, (js "OK"); split; reflexivity).
  assert (F : fails (MoreSample.second_down 1%nat
                       (Handler.auto_reply Sample.env_full Sample.jo)))
    by constructor.
  split; [exact S | ]. split; [exact F | ].
  apply (second_failure_comes_after_the_notification MoreSample.second_down Sample.env_full
           (Sample.post Sample.jo) Sample.jo eq_refl eq_refl).
  - repeat split; apply Hn; discriminate.
  - repeat split; apply Hn; discriminate.
  - exact S.
  - exact F.
Defined.

(** X4.  An invocation never makes more than two outbound calls; they are
    the notification and then the auto-reply of the request's body; and the
    auto-reply is only ever sent when the notification call has succeeded. *)
Theorem calls_are_the_notification_then_the_auto_reply api env req :
  let c := calls (trace (run (Handler.handler api env req))) in
  let b := body_or_empty (req_body req) in
  (c = [] \/ c = [Handler.notification env b]
   \/ c = [Handler.notification env b; Handler.auto_reply env b])
  /\ (List.length c = 2%nat -> succeeds (api 0%nat (Handler.notification env b))).
Proof.
  cbv zeta.
  destruct (Handler_outcomes api env req)
    as [[T _] | [[C _] | (b & -> & _ & _ & [(F & C & _) | [(S & _ & C & _) | (S & _ & C & _)]])]];
    cbn [req_body body_or_empty]; rewrite ?T, ?C; cbn;
    (split; [auto | ]); intros L; try discriminate; exact S.
Qed.

(** X5.  The handler answers [{success: true}] only when both emails went
    through: from such an answer it follows that the request was a POST with
    a complete body, that the credentials were in place, and that the
    notification and the auto-reply were both sent and both succeeded. *)
Theorem success_is_answered_only_after_both_calls api env req :
  reply (res (run (Handler.handler api env req)))
  = Some (Json (JObj [(js "success", JBool true)])) ->
  exists b,
    req = {| method := js "POST"; req_body := Some b |}
    /\ complete b /\ credentials env
    /\ succeeds (api 0%nat (Handler.notification env b))
    /\ succeeds (api 1%nat (Handler.auto_reply env b))
    /\ calls (trace (run (Handler.handler api env req)))
       = [Handler.notification env b; Handler.auto_reply env b].
Proof.
  intros R.
  assert (A : forall x, answer (run (Handler.handler api env req)) = x ->
              snd x = Some (Json (JObj [(js "success", JBool true)]))).
  { intros x <-. exact R. }
  destruct (Handler_outcomes api env req)
    as [[_ [E | [E | E]]] | [[_ E] | (b & Hq & Hb & He & [(_ & _ & E) | [(_ & _ & _ & E) | (S1 & S2 & C & _)]])]];
    try (apply A in E; cbn in E; discriminate).
  exists b. auto 10.
Qed.

Lemma success_is_answered_only_after_both_calls_witness :
  reply (res (run (Handler.handler Sample.accepting Sample.env_full (Sample.post Sample.jo))))
  = Some (Json (JObj [(js "success", JBool true)]))
  /\ exists b,
       Sample.post Sample.jo = {| method := js "POST"; req_body := Some b |}
       /\ complete b /\ credentials Sample.env_full
       /\ succeeds (Sample.accepting 0%nat (Handler.notification Sample.env_full b))
       /\ succeeds (Sample.accepting 1%nat (Handler.auto_reply Sample.env_full b))
       /\ calls (trace (run (Handler.handler Sample.accepting Sample.env_full
                               (Sample.post Sample.jo))))
          = [Handler.notification Sample.env_full b; Handler.auto_reply Sample.env_full b].
Proof.
  split; [reflexivity | ].
  apply (success_is_answered_only_after_both_calls Sample.accepting Sample.env_full
           (Sample.post Sample.jo)).
  reflexivity.
Defined.

(** X6.  The documented variant names the check that a POST fails: an
    incomplete body gets 400 with the message about the required fields,
    whatever its email address; a complete body whose email address does not
    have the shape [local@domain.tld] gets 400 and
    [{error: "Invalid email address."}].  The address is tested as received:
    white space anywhere in it, also around it, fails the check.  In each
    case nothing is logged or sent. *)
Theorem documented_handler_rejects_malformed_email api env req :
  method req = js "POST" ->
  let b := body_or_empty (req_body req) in
  let w := run (HandlerDoc.handler api env req) in
  (~ complete b ->
   trace w = []
   /\ answer w = (400, Some (Json (JObj [(js "error",
                     JStr (js "Name, email and message are required."))]))))
  /\ (complete b -> ~ Regex.local_domain_tld (to_string (email b)) ->
      trace w = []
      /\ answer w = (400, Some (Json (JObj [(js "error",
                        JStr (js "Invalid email address."))]))))
  /\ (complete b ->
      (exists c, In c (to_string (email b)) /\ is_space c = true) ->
      answer w = (400, Some (Json (JObj [(js "error", JStr (js "Invalid email address."))])))).
Proof.
  intros Hm. cbv zeta.
  assert (K : complete (body_or_empty (req_body req)) ->
              ~ Regex.local_domain_tld (to_string (email (body_or_empty (req_body req)))) ->
              trace (run (HandlerDoc.handler api env req)) = []
              /\ answer (run (HandlerDoc.handler api env req))
                 = (400, Some (Json (JObj [(js "error",
                                            JStr (js "Invalid email address."))])))).
  { intros Hb Hr. apply HandlerDoc_invalid_email; [exact Hm | exact Hb | ].
    apply not_true_is_false. now rewrite emailRegex_shape. }
  split; [ | split; [exact K | ]].
  - intros Hb. exact (HandlerDoc_incomplete api env req Hm Hb).
  - intros Hb (c & Hin & Hc). apply K; [exact Hb | ].
    intros Hs. apply shape_no_space in Hs.
    rewrite forallb_forall in Hs. specialize (Hs c Hin).
    rewrite Hc in Hs. discriminate.
Qed.

Lemma documented_handler_rejects_malformed_email_witness :
  ~ Regex.local_domain_tld (to_string (email Sample.jo_at_nowhere))
  /\ answer (run (HandlerDoc.handler Sample.accepting Sample.env_full
                    (Sample.post Sample.jo_at_nowhere)))
     = (400, Some (Json (JObj [(js "error", JStr (js "Invalid email address."))])))
  /\ answer (run (HandlerDoc.handler Sample.accepting Sample.env_full
                    (Sample.post MoreSample.jo_with_blank)))
     = (400, Some (Json (JObj [(js "error", JStr (js "Invalid email address."))]))).
Proof.
  assert (Hn : forall s, s <> [] -> non_empty (Str s)) by (intros s H; now exists s).
  assert (R : ~ Regex.local_domain_tld (to_string (email Sample.jo_at_nowhere))).
  { rewrite <- emailRegex_shape. vm_compute. discriminate. }
  split; [exact R | ]. split.
  - destruct (documented_handler_rejects_malformed_email Sample.accepting Sample.env_full
                (Sample.post Sample.jo_at_nowhere) eq_refl) as (_ & A & _).
    apply A; [ | exact R]. repeat split; apply Hn; discriminate.
  - destruct (documented_handler_rejects_malformed_email Sample.accepting Sample.env_full
                (Sample.post MoreSample.jo_with_blank) eq_refl) as (_ & _ & A).
    apply A.
    + repeat split; apply Hn; discriminate.
    + exists 32. split; [ | reflexivity]. vm_compute. auto 20.
Defined.

(** X7.  The documented variant sends a complete submission with a
    well-formed address whatever the environment holds: first the
    notification, then the auto-reply, which carries the page built for the
    name and the subject; when the provider answers both with a success
    status, whatever the bodies, the answer is 200 and [{success: true}]. *)
Theorem documented_handler_sends_valid_submission api env b n :
  complete b -> name b = Str n ->
  Regex.local_domain_tld (to_string (email b)) ->
  accepted (api 0%nat (HandlerDoc.notification env b)) ->
  accepted (api 1%nat (HandlerDoc.auto_reply env b (documented_page n (subject b)))) ->
  let w := run (HandlerDoc.handler api env {| method := js "POST"; req_body := Some b |}) in
  calls (trace w) = [ HandlerDoc.notification env b;
                      HandlerDoc.auto_reply env b (documented_page n (subject b)) ]
  /\ lookup (js "auto_reply_html")
       (template_params (HandlerDoc.auto_reply env b (documented_page n (subject b))))
     = Some (Str (HandlerDoc.mail_top ++ n ++ HandlerDoc.mail_greeting ++ n
                  ++ HandlerDoc.mail_thanks
                  ++ to_string (or_else (subject b) (js "your message"))
                  ++ HandlerDoc.mail_next ++ split_first n ++ HandlerDoc.mail_rest))
  /\ answer w = (200, Some (Json (JObj [(js "success", JBool true)]))).
Proof.
  intros Hb Hn Hr A1 A2. apply emailRegex_shape in Hr.
  destruct (HandlerDoc_both_accepted api env b (documented_page n (subject b)) Hb Hr)
    as [C A]; try assumption.
  - intros w. rewrite Hn. apply HandlerDoc_page.
  - cbv zeta. split; [exact C | ]. split; [reflexivity | exact A].
Qed.

Lemma documented_handler_sends_valid_submission_witness :
  complete Sample.jo
  /\ Regex.local_domain_tld (to_string (email Sample.jo))
  /\ answer (run (HandlerDoc.handler MoreSample.bodiless Sample.env_no_key
                    (Sample.post Sample.jo)))
     = (200, Some (Json (JObj [(js "success", JBool true)]))).
Proof.
  assert (Hn : forall s, s <> [] -> non_empty (Str s)) by (intros s H; now exists s).
  assert (C : complete Sample.jo) by (repeat split; apply Hn; discriminate).
  assert (R : Regex.local_domain_tld (to_string (email Sample.jo))).
  { apply emailRegex_shape. vm_compute. reflexivity. }
  split; [exact C | ]. split; [exact R | ].
  apply (documented_handler_sends_valid_submission MoreSample.bodiless Sample.env_no_key
           Sample.jo (js "Jo") C eq_refl R).
  - exists 202, (Unreadable (js "terminated")). split; reflexivity.
  - exists 202, (Unreadable (js "terminated")). split; reflexivity.
Defined.

(** X8.  In the documented variant a first call that is refused, by the
    transport or with a status that is no success, is the only call, and the
    answer is 500 with the generic message alone: the text of the error is
    logged, not returned. *)
Theorem documented_handler_stops_at_first_refusal api env b :
  complete b ->
  Regex.local_domain_tld (to_string (email b)) ->
  refused (api 0%nat (HandlerDoc.notification env b)) ->
  let w := run (HandlerDoc.handler api env {| method := js "POST"; req_body := Some b |}) in
  calls (trace w) = [HandlerDoc.notification env b]
  /\ (exists e, last (trace w) (Settled (Rejected []))
                = ConsoleError [LJson (JStr (js "EmailJS error:")); LErr e])
  /\ answer w = (500, Some (Json (JObj [(js "error",
                   JStr (js "Failed to send email. Please try again."))]))).
Proof.
  intros Hb Hr F. apply emailRegex_shape in Hr. apply complete_guard in Hb. cbv zeta.
  unfold run, HandlerDoc.handler.
  cbn -[Regex.test Regex.emailRegex]. rewrite Hb.
  cbn -[Regex.test Regex.emailRegex]. rewrite Hr. cbn.
  unfold try_catch, HandlerDoc.send_both, HandlerDoc.sendEmail, bind, fetch; cbn.
  destruct F as [(msg & E) | (status & bd & E & O)]; rewrite E; cbn.
  - split; [reflexivity | ]. split; [eexists; reflexivity | reflexivity].
  - rewrite O; cbn. destruct bd; cbn;
      (split; [reflexivity | ]; split; [eexists; reflexivity | reflexivity]).
Qed.

Lemma documented_handler_stops_at_first_refusal_witness :
  refused (Sample.refusing 0%nat (HandlerDoc.notification Sample.env_full Sample.jo))
  /\ calls (trace (run (HandlerDoc.handler Sample.refusing Sample.env_full
                          (Sample.post Sample.jo))))
     = [HandlerDoc.notification Sample.env_full Sample.jo]
  /\ answer (run (HandlerDoc.handler Sample.refusing Sample.env_full (Sample.post Sample.jo)))
     = (500, Some (Json (JObj [(js "error",
                   JStr (js "Failed to send email. Please try again."))]))).
Proof.
  assert (Hn : forall s, s <> [] -> non_empty (Str s)) by (intros s H; now exists s).
  assert (F : refused (Sample.refusing 0%nat
                         (HandlerDoc.notification Sample.env_full Sample.jo))).
  { right. exists 400, (Text (js "Bad Request")). split; reflexivity. }
  split; [exact F | ].
  destruct (documented_handler_stops_at_first_refusal Sample.refusing Sample.env_full
              Sample.jo) as (C & _ & A).
  - repeat split; apply Hn; discriminate.
  - apply emailRegex_shape. vm_compute. reflexivity.
  - exact F.
  - split; [exact C | exact A].
Defined.

End HandlerMore.

(* ================================================================== *)
(** * Further properties of the form client *)
(* ================================================================== *)

Section ClientMore.

Import JS Dom ClientTerms MoreTerms.
Local Open Scope N_scope.

Lemma required_missing f :
  trim (name_value f) = [] \/ trim (email_value f) = [] \/ trim (message_value f) = [] ->
  falsy (Str (trim (name_value f))) || falsy (Str (trim (email_value f)))
  || falsy (Str (trim (message_value f))) = true.
Proof.
  intros [H | [H | H]]; rewrite H; cbn; rewrite ?orb_true_r; reflexivity.
Qed.

(** X9.  When the name, the email or the message is empty or consists of
    white space only, either client stops before any call: the page only
    gains the toast that asks to fill in all required fields; the submit
    control and the fields are not touched. *)
Theorem empty_required_field_is_not_sent srv emailjs p :
  trim (name_value (inputs p)) = [] \/ trim (email_value (inputs p)) = []
  \/ trim (message_value (inputs p)) = [] ->
  Client.submit srv p
    = showToast (JStr (js "Please fill in all required fields.")) (js "error") p
  /\ ClientSdk.submit emailjs p
    = showToast (JStr (js "Please fill in all required fields.")) (js "error") p
  /\ network (Client.submit srv p) = network p
  /\ network (ClientSdk.submit emailjs p) = network p
  /\ submitBtn (Client.submit srv p) = submitBtn p
  /\ inputs (Client.submit srv p) = inputs p.
Proof.
  intros H. apply required_missing in H.
  assert (E1 : Client.submit srv p
               = showToast (JStr (js "Please fill in all required fields.")) (js "error") p).
  { unfold Client.submit, Client.submit_begin. now rewrite H. }
  assert (E2 : ClientSdk.submit emailjs p
               = showToast (JStr (js "Please fill in all required fields.")) (js "error") p).
  { unfold ClientSdk.submit. now rewrite H. }
  rewrite E1, E2. repeat split.
Qed.

Lemma empty_required_field_is_not_sent_witness :
  trim (message_value (inputs (Sample.fresh_page MoreSample.form_blank_message))) = []
  /\ network (Client.submit (fun _ => Client.Unreachable)
                (Sample.fresh_page MoreSample.form_blank_message)) = []
  /\ shown (Client.submit (fun _ => Client.Unreachable)
              (Sample.fresh_page MoreSample.form_blank_message))
     = Some (0%nat, {| toast_message := JStr (js "Please fill in all required fields.");
                       toast_type := js "error" |}).
Proof.
  split; [reflexivity | ].
  destruct (empty_required_field_is_not_sent (fun _ => Client.Unreachable) (fun _ => true)
              (Sample.fresh_page MoreSample.form_blank_message)) as (E & _ & N & _).
  - right. right. reflexivity.
  - split; [exact N | ]. rewrite E. reflexivity.
Defined.

(** X10.  After a success (a success status and a body with a truthy
    [success]) the control shows that the message was sent and stays
    disabled, and the fields still hold what was entered; the form is reset
    only by the callback scheduled for three seconds later, which puts the
    fields back to their defaults and gives the control its original label,
    no background and its enabled state. *)
Theorem successful_submission_resets_the_form_later srv p status d :
  valid (inputs p) ->
  srv (request_of (inputs p)) = Client.Responded status (Some d) ->
  Http.ok status = true -> json_truthy (get d (js "success")) = true ->
  let p' := Client.submit srv p in
  let reset := ResetForm (innerHTML (submitBtn p)) in
  inputs p' = inputs p
  /\ submitBtn p' = {| innerHTML := html "<i class=`fas fa-check`></i> Message Sent!";
                       disabled := true;
                       background := js "linear-gradient(135deg, #27ae60, #2ecc71)" |}
  /\ shown p' = Some (made p,
                      {| toast_message :=
                           JStr (js "Message sent! Check your inbox for a confirmation email.");
                         toast_type := js "success" |})
  /\ timers p' = timers p ++ [(5000, RemoveToast (made p)); (3000, reset)]
  /\ inputs (fire reset p') = defaults p
  /\ submitBtn (fire reset p')
     = {| innerHTML := innerHTML (submitBtn p); disabled := false; background := [] |}.
Proof.
  intros V E O S. cbv zeta. unfold Client.submit.
  rewrite (Client_begin_valid p V). cbn [Client.originalHTML Client.posted].
  unfold request_of in E. rewrite E. unfold Client.submit_settle.
  destruct d; try (cbn in S; discriminate);
    rewrite O, S; cbn; rewrite <- app_assoc; repeat split.
Qed.

Lemma successful_submission_resets_the_form_later_witness :
  valid (inputs (Sample.fresh_page Sample.form_jo))
  /\ inputs (Client.submit MoreSample.thanking (Sample.fresh_page Sample.form_jo))
     = Sample.form_jo
  /\ inputs (fire (ResetForm (js "Send Message"))
               (Client.submit MoreSample.thanking (Sample.fresh_page Sample.form_jo)))
     = Sample.empty_form.
Proof.
  assert (V : valid (inputs (Sample.fresh_page Sample.form_jo))).
  { repeat split; try (vm_compute; discriminate).
    apply emailRegex_shape. vm_compute. reflexivity. }
  split; [exact V | ].
  destruct (successful_submission_resets_the_form_later MoreSample.thanking
              (Sample.fresh_page Sample.form_jo) 200
              (JObj [(js "success", JBool true)]) V eq_refl eq_refl eq_refl)
    as (I & _ & _ & _ & R & _).
  split; [exact I | exact R].
Defined.

(** X11.  [showToast] keeps at most one toast in the document, and the
    removal it schedules only ever removes its own toast: after two calls
    the second toast is the one shown, the timer of the first leaves it in
    place, and its own timer removes it. *)
Theorem stale_timer_spares_newer_toast m1 t1 m2 t2 p :
  let p2 := showToast m2 t2 (showToast m1 t1 p) in
  shown p2 = Some (S (made p), {| toast_message := m2; toast_type := t2 |})
  /\ timers p2 = timers p ++ [(5000, RemoveToast (made p));
                              (5000, RemoveToast (S (made p)))]
  /\ fire (RemoveToast (made p)) p2 = p2
  /\ shown (fire (RemoveToast (S (made p))) p2) = None.
Proof.
  cbv zeta. unfold showToast, setTimeout, fire. cbn.
  rewrite <- app_assoc. split; [reflexivity | ]. split; [reflexivity | ].
  rewrite Nat.eqb_refl.
  destruct (Nat.eqb_spec (made p) (S (made p))) as [E | _]; [lia | ].
  split; reflexivity.
Qed.

(** X12.  In the SDK client a send that fails stops the submission: after a
    failed notification the auto-reply is never sent; in either case the
    control gets its original label back and is enabled, the fields keep
    their contents, and the toast tells that the message could not be sent. *)
Theorem sdk_failure_restores_the_control emailjs p :
  valid (inputs p) ->
  emailjs 0%nat = false \/ emailjs 1%nat = false ->
  let p' := ClientSdk.submit emailjs p in
  innerHTML (submitBtn p') = innerHTML (submitBtn p)
  /\ disabled (submitBtn p') = false
  /\ inputs p' = inputs p
  /\ shown p' = Some (made p,
                      {| toast_message := JStr (js "Failed to send message. Please try again.");
                         toast_type := js "error" |})
  /\ timers p' = timers p ++ [(5000, RemoveToast (made p))]
  /\ (emailjs 0%nat = false ->
      exists params,
        network p' = network p
                     ++ [EmailjsSend ClientSdk.EMAILJS_SERVICE_ID
                           ClientSdk.NOTIFICATION_TEMPLATE_ID params]).
Proof.
  intros (Hn & He & Hm & Hr) F. cbv zeta. unfold ClientSdk.submit.
  rewrite (required_guard _ Hn He Hm).
  apply emailRegex_shape in Hr. rewrite Hr. cbn [negb].
  destruct (emailjs 0%nat) eqn:E0; cbn [negb].
  - destruct F as [F | F]; [discriminate | ]. rewrite F. cbn [negb].
    repeat split. discriminate.
  - repeat split. intros _. eexists. reflexivity.
Qed.

Lemma sdk_failure_restores_the_control_witness :
  valid (inputs (Sample.fresh_page Sample.form_jo))
  /\ network (ClientSdk.submit (fun _ => false) (Sample.fresh_page Sample.form_jo))
     = [ EmailjsSend (js "YOUR_SERVICE_ID") (js "YOUR_NOTIFICATION_TEMPLATE_ID")
           [ (js "from_name", js "Jo"); (js "from_email", js "jo@x.com");
             (js "reply_to", js "jo@x.com"); (js "subject", js "(No subject)");
             (js "message", js "Hi") ] ]
  /\ disabled (submitBtn (ClientSdk.submit (fun _ => false)
                            (Sample.fresh_page Sample.form_jo))) = false.
Proof.
  assert (V : valid (inputs (Sample.fresh_page Sample.form_jo))).
  { repeat split; try (vm_compute; discriminate).
    apply emailRegex_shape. vm_compute. reflexivity. }
  split; [exact V | ].
  destruct (sdk_failure_restores_the_control (fun _ => false)
              (Sample.fresh_page Sample.form_jo) V (or_introl eq_refl))
    as (_ & D & _).
  split; [reflexivity | exact D].
Defined.

(** X13.  A field that the [blur] listener flags (red border) is a required
    field that is blank after trimming; if it is the name, the email or the
    message, submitting the form as it is only yields the toast that asks to
    fill in all required fields.  Gaining focus clears the flag. *)
Theorem flagged_field_blocks_submission srv emailjs p i :
  Field.value_ i = name_value (inputs p) \/ Field.value_ i = email_value (inputs p)
  \/ Field.value_ i = message_value (inputs p) ->
  Field.borderColor (Field.blur i) = js "#e74c3c" ->
  Field.required i = true
  /\ trim (Field.value_ i) = []
  /\ Client.submit srv p
     = showToast (JStr (js "Please fill in all required fields.")) (js "error") p
  /\ ClientSdk.submit emailjs p
     = showToast (JStr (js "Please fill in all required fields.")) (js "error") p
  /\ Field.borderColor (Field.focus (Field.blur i)) = [].
Proof.
  intros W B. unfold Field.blur in B.
  destruct (str_eqb (trim (Field.value_ i)) [] && Field.required i) eqn:G;
    [ | cbn in B; discriminate ].
  apply andb_true_iff in G as [T R]. apply str_eqb_eq in T.
  assert (M : falsy (Str (trim (name_value (inputs p))))
              || falsy (Str (trim (email_value (inputs p))))
              || falsy (Str (trim (message_value (inputs p)))) = true).
  { apply required_missing. destruct W as [W | [W | W]]; rewrite <- W; auto. }
  split; [exact R | ]. split; [exact T | ].
  split; [unfold Client.submit, Client.submit_begin; now rewrite M | ].
  split; [unfold ClientSdk.submit; now rewrite M | reflexivity].
Qed.

Lemma flagged_field_blocks_submission_witness :
  Field.borderColor
    (Field.blur {| Field.value_ := js "   "; Field.required := true;
                   Field.borderColor := [] |}) = js "#e74c3c"
  /\ Client.submit (fun _ => Client.Unreachable)
       (Sample.fresh_page MoreSample.form_blank_message)
     = showToast (JStr (js "Please fill in all required fields.")) (js "error")
         (Sample.fresh_page MoreSample.form_blank_message).
Proof.
  split; [reflexivity | ].
  destruct (flagged_field_blocks_submission (fun _ => Client.Unreachable) (fun _ => true)
              (Sample.fresh_page MoreSample.form_blank_message)
              {| Field.value_ := js "   "; Field.required := true;
                 Field.borderColor := [] |}) as (_ & _ & E & _).
  - right. right. reflexivity.
  - reflexivity.
  - exact E.
Defined.

(** X14.  In the SDK client a submission both of whose sends resolve makes
    exactly these two sends, the notification and then the auto-reply, with
    one and the same parameter object (so the auto-reply carries no page);
    the control then shows that the message was sent and stays disabled, and
    the form is reset by the callback scheduled for three seconds later. *)
Theorem sdk_success_sends_both_with_the_same_parameters emailjs p :
  valid (inputs p) ->
  emailjs 0%nat = true -> emailjs 1%nat = true ->
  let p' := ClientSdk.submit emailjs p in
  let params := ClientSdk.templateParams
                  (trim (name_value (inputs p))) (trim (email_value (inputs p)))
                  (trim (subject_value (inputs p))) (trim (message_value (inputs p))) in
  network p' = network p
               ++ [ EmailjsSend ClientSdk.EMAILJS_SERVICE_ID
                      ClientSdk.NOTIFICATION_TEMPLATE_ID params;
                    EmailjsSend ClientSdk.EMAILJS_SERVICE_ID
                      ClientSdk.AUTOREPLY_TEMPLATE_ID params ]
  /\ map fst params = [js "from_name"; js "from_email"; js "reply_to"; js "subject";
                       js "message"]
  /\ submitBtn p' = {| innerHTML := html "<i class=`fas fa-check`></i> Message Sent!";
                       disabled := true;
                       background := js "linear-gradient(135deg, #27ae60, #2ecc71)" |}
  /\ inputs p' = inputs p
  /\ timers p' = timers p ++ [(5000, RemoveToast (made p));
                              (3000, ResetForm (innerHTML (submitBtn p)))]
  /\ inputs (fire (ResetForm (innerHTML (submitBtn p))) p') = defaults p.
Proof.
  intros (Hn & He & Hm & Hr) E0 E1. cbv zeta. unfold ClientSdk.submit.
  rewrite (required_guard _ Hn He Hm).
  apply emailRegex_shape in Hr. rewrite Hr, E0, E1. cbn.
  rewrite <- !app_assoc. repeat split.
Qed.

Lemma sdk_success_sends_both_with_the_same_parameters_witness :
  valid (inputs (Sample.fresh_page Sample.form_jo))
  /\ List.length (network (ClientSdk.submit (fun _ => true)
                             (Sample.fresh_page Sample.form_jo))) = 2%nat
  /\ inputs (ClientSdk.submit (fun _ => true) (Sample.fresh_page Sample.form_jo))
     = Sample.form_jo.
Proof.
  assert (V : valid (inputs (Sample.fresh_page Sample.form_jo))).
  { repeat split; try (vm_compute; discriminate).
    apply emailRegex_shape. vm_compute. reflexivity. }
  split; [exact V | ].
  destruct (sdk_success_sends_both_with_the_same_parameters (fun _ => true)
              (Sample.fresh_page Sample.form_jo) V eq_refl eq_refl)
    as (N & _ & _ & I & _).
  split; [rewrite N; reflexivity | exact I].
Defined.

(** X15.  An answer whose body is not JSON, or is the JSON [null], is
    reported by the posting client as a failure to reach the server,
    whatever its status: the request has gone out, the control is restored
    and the fields keep what was entered. *)
Theorem unreadable_answer_is_reported_as_unreachable srv p status :
  valid (inputs p) ->
  srv (request_of (inputs p)) = Client.Responded status None
  \/ srv (request_of (inputs p)) = Client.Responded status (Some JNull) ->
  let p' := Client.submit srv p in
  shown p' = Some (made p,
                   {| toast_message :=
                        JStr (js "Could not reach the server. Please check your connection.");
                      toast_type := js "error" |})
  /\ network p' = network p ++ [Post (js "/api/contact") (request_of (inputs p))]
  /\ submitBtn p' = {| innerHTML := innerHTML (submitBtn p); disabled := false;
                       background := background (submitBtn p) |}
  /\ inputs p' = inputs p.
Proof.
  intros V E. cbv zeta. unfold Client.submit.
  rewrite (Client_begin_valid p V). cbn [Client.originalHTML Client.posted].
  unfold request_of in E. destruct E as [E | E]; rewrite E; cbn; repeat split.
Qed.

Lemma unreadable_answer_is_reported_as_unreachable_witness :
  valid (inputs (Sample.fresh_page Sample.form_jo))
  /\ shown (Client.submit (fun _ => Client.Responded 200 None)
              (Sample.fresh_page Sample.form_jo))
     = Some (0%nat,
             {| toast_message :=
                  JStr (js "Could not reach the server. Please check your connection.");
                toast_type := js "error" |}).
Proof.
  assert (V : valid (inputs (Sample.fresh_page Sample.form_jo))).
  { repeat split; try (vm_compute; discriminate).
    apply emailRegex_shape. vm_compute. reflexivity. }
  split; [exact V | ].
  destruct (unreadable_answer_is_reported_as_unreachable
              (fun _ => Client.Responded 200 None)
              (Sample.fresh_page Sample.form_jo) 200 V (or_introl eq_refl)) as (S & _).
  exact S.
Defined.

End ClientMore.

(* ================================================================== *)
(** * The email check, and the client against the handler *)
(* ================================================================== *)

Section WireMore.

Import JS Http Dom HandlerTerms ClientTerms MoreTerms.
Local Open Scope N_scope.

Arguments Handler.buildAutoReplyHtml : simpl never.
Arguments HandlerDoc.buildAutoReplyHtml : simpl never.
Arguments dec : simpl never.

(** One step of a symbolic run of the documented handler. *)
Ltac step_doc api :=
  match goal with
  | |- context [HandlerDoc.buildAutoReplyHtml ?n ?s ?w0] =>
      let Fr := fresh "Fr" in
      pose proof (HandlerDoc_page_frame n s w0) as Fr;
      destruct (HandlerDoc.buildAutoReplyHtml n s w0) as [[? | ?] ?];
      cbn in Fr; subst
  | |- context [match api ?n ?p with _ => _ end] => destruct (api n p) as [? | ? [? | ?]]
  | |- context [if ok ?st then _ else _] => destruct (ok st) eqn:?
  | |- context [if negb (ok ?st) then _ else _] => destruct (ok st) eqn:?
  end; cbn -[body_of].

(** X16.  An address that passes the email check holds exactly one [@] and
    no white space, so trimming leaves it as it is, and it has at least five
    code units. *)
Theorem accepted_address_has_one_at_and_no_blank s :
  Regex.test Regex.emailRegex s = true ->
  count_occ N.eq_dec s 64 = 1%nat
  /\ forallb (fun c => negb (is_space c)) s = true
  /\ trim s = s
  /\ (5 <= List.length s)%nat.
Proof.
  intros H. apply emailRegex_shape in H.
  pose proof (shape_no_space s H) as NS.
  destruct H as (l & d & t & -> & Hl & Hd & Ht & Fl & Fd & Ft).
  split; [ | split; [exact NS | split; [now apply trim_no_space | ]]].
  - rewrite count_occ_app, count_occ_cons_eq, count_occ_app, count_occ_cons_neq
      by (reflexivity || discriminate).
    pose proof (class_no_at l Fl) as Cl. pose proof (class_no_at d Fd) as Cd.
    pose proof (class_no_at t Ft) as Ct. unfold code_unit in *.
    rewrite Cl, Cd, Ct. reflexivity.
  - rewrite length_app. simpl. rewrite length_app. simpl.
    destruct l; [contradiction | ]. destruct d; [contradiction | ].
    destruct t; [contradiction | ]. simpl. lia.
Qed.

Lemma accepted_address_has_one_at_and_no_blank_witness :
  Regex.test Regex.emailRegex (js "jo@x.com") = true
  /\ count_occ N.eq_dec (js "jo@x.com") 64 = 1%nat
  /\ trim (js "jo@x.com") = js "jo@x.com".
Proof.
  split; [reflexivity | ].
  destruct (accepted_address_has_one_at_and_no_blank (js "jo@x.com") eq_refl)
    as (C & _ & T & _).
  split; [exact C | exact T].
Defined.

Lemma valid_complete f : valid f -> complete (body_of f).
Proof.
  intros (Hn & He & Hm & _). unfold complete, body_of. cbn.
  repeat split; eexists; (split; [reflexivity | assumption]).
Qed.

Lemma received_request_of f :
  Wire.received (request_of f)
  = Some {| method := js "POST"; req_body := Some (body_of f) |}.
Proof. reflexivity. Qed.

Lemma status_of_answer w st r : answer w = (st, r) -> statusCode (res w) = st.
Proof. unfold answer. now intros [= -> _]. Qed.

(** X17.  What the posting client sends for a form that passes its checks
    also passes the checks of the handler, in both variants: the request is a
    POST whose body holds the trimmed fields as strings, the required ones
    not empty and the email of the accepted shape, so the answer is never a
    400 or a 405: it is 200 or 500. *)
Theorem client_submission_passes_the_handler_checks srv api env p :
  valid (inputs p) ->
  let req := {| method := js "POST"; req_body := Some (body_of (inputs p)) |} in
  network (Client.submit srv p)
  = network p ++ [Post (js "/api/contact") (request_of (inputs p))]
  /\ Wire.received (request_of (inputs p)) = Some req
  /\ complete (body_of (inputs p))
  /\ Regex.test Regex.emailRegex (to_string (email (body_of (inputs p)))) = true
  /\ (statusCode (res (run (Handler.handler api env req))) = 200
      \/ statusCode (res (run (Handler.handler api env req))) = 500)
  /\ (statusCode (res (run (HandlerDoc.handler api env req))) = 200
      \/ statusCode (res (run (HandlerDoc.handler api env req))) = 500).
Proof.
  intros V. cbv zeta.
  pose proof (valid_complete _ V) as C.
  assert (R : Regex.test Regex.emailRegex (to_string (email (body_of (inputs p)))) = true).
  { destruct V as (_ & _ & _ & R). apply emailRegex_shape. exact R. }
  split.
  { unfold Client.submit. rewrite (Client_begin_valid p V).
    cbn [Client.originalHTML Client.posted]. rewrite Client_settle_network. reflexivity. }
  split; [apply received_request_of | ]. split; [exact C | ]. split; [exact R | ].
  split.
  - destruct (falsy (EMAILJS_SERVICE_ID env) || falsy (EMAILJS_PUBLIC_KEY env)
              || falsy (EMAILJS_PRIVATE_KEY env)) eqn:G.
    + right. rewrite !orb_true_iff, !falsy_absent_or_empty in G.
      assert (G' : absent_or_empty (EMAILJS_SERVICE_ID env)
                   \/ absent_or_empty (EMAILJS_PUBLIC_KEY env)
                   \/ absent_or_empty (EMAILJS_PRIVATE_KEY env)) by tauto.
      clear G. rename G' into G.
      destruct (Handler_misconfigured api env
                  {| method := js "POST"; req_body := Some (body_of (inputs p)) |}
                  eq_refl C G) as [_ A].
      exact (status_of_answer _ _ _ A).
    + apply credentials_guard in G.
      destruct (fails_or_succeeds (api 0%nat (Handler.notification env (body_of (inputs p)))))
        as [F1 | S1].
      { right. destruct (Handler_first_fails api env _ C G F1) as [_ A].
        exact (status_of_answer _ _ _ A). }
      destruct (fails_or_succeeds (api 1%nat (Handler.auto_reply env (body_of (inputs p)))))
        as [F2 | S2].
      { right. destruct (Handler_second_fails api env _ C G S1 F2) as [_ A].
        exact (status_of_answer _ _ _ A). }
      left. destruct S1 as (st1 & t1 & E1 & O1), S2 as (st2 & t2 & E2 & O2).
      destruct (Handler_both_succeed api env _ st1 t1 st2 t2 C G E1 O1 E2 O2) as [_ A].
      exact (status_of_answer _ _ _ A).
  - apply complete_guard in C.
    unfold run, HandlerDoc.handler.
    cbn -[Regex.test Regex.emailRegex body_of]. rewrite C.
    cbn -[Regex.test Regex.emailRegex body_of]. rewrite R. cbn -[body_of].
    unfold try_catch, HandlerDoc.send_both, HandlerDoc.sendEmail, bind, fetch;
      cbn -[body_of].
    repeat (step_doc api); auto.
Qed.

Lemma client_submission_passes_the_handler_checks_witness :
  valid (inputs (Sample.fresh_page Sample.form_jo))
  /\ Wire.received (request_of Sample.form_jo)
     = Some {| method := js "POST";
               req_body := Some {| name := Str (js "Jo"); email := Str (js "jo@x.com");
                                   subject := Str []; message := Str (js "Hi") |} |}
  /\ complete (body_of Sample.form_jo).
Proof.
  assert (V : valid (inputs (Sample.fresh_page Sample.form_jo))).
  { repeat split; try (vm_compute; discriminate).
    apply emailRegex_shape. vm_compute. reflexivity. }
  split; [exact V | ].
  destruct (client_submission_passes_the_handler_checks (fun _ => Client.Unreachable)
              Sample.accepting Sample.env_full (Sample.fresh_page Sample.form_jo) V)
    as (_ & R & C & _).
  split; [exact R | exact C].
Defined.

Lemma seen_answer w st j :
  answer w = (st, Some (Json j)) -> Wire.seen w = Some (Client.Responded st (Some j)).
Proof. unfold answer, Wire.seen. intros [= -> ->]. reflexivity. Qed.

(** What the client shows for an answer that is no success and carries an
    [error]. *)
Lemma Client_shows_error srv p st d m :
  valid (inputs p) ->
  srv (request_of (inputs p)) = Client.Responded st (Some d) ->
  ok st = false -> get d (js "error") = Some (JStr m) -> m <> [] ->
  let p' := Client.submit srv p in
  shown p' = Some (made p, {| toast_message := JStr m; toast_type := js "error" |})
  /\ submitBtn p' = {| innerHTML := innerHTML (submitBtn p); disabled := false;
                       background := background (submitBtn p) |}
  /\ inputs p' = inputs p.
Proof.
  intros V E O G Hm. cbv zeta. unfold Client.submit.
  rewrite (Client_begin_valid p V). cbn [Client.originalHTML Client.posted].
  unfold request_of in E. rewrite E. unfold Client.submit_settle, Client.error_or_fallback.
  destruct d; try (cbn in G; discriminate).
  rewrite O, G. destruct m as [ | c m ]; [contradiction | ].
  cbn. repeat split.
Qed.

(** X18.  When the handler serves the posting client and the submission of a
    form that passes the client's checks is not delivered, the visitor is
    told why and can try again: the toast shows the handler's own message
    (the misconfiguration when a credential is missing, the failure to send
    otherwise), the control gets its original label back and is enabled, and
    the fields keep what was entered. *)
Theorem handler_failure_reaches_the_visitor api env srv p :
  valid (inputs p) ->
  Wire.handled (Handler.handler api env) (request_of (inputs p))
  = Some (srv (request_of (inputs p))) ->
  (absent_or_empty (EMAILJS_SERVICE_ID env) \/ absent_or_empty (EMAILJS_PUBLIC_KEY env)
   \/ absent_or_empty (EMAILJS_PRIVATE_KEY env))
  \/ fails (api 0%nat (Handler.notification env (body_of (inputs p))))
  \/ fails (api 1%nat (Handler.auto_reply env (body_of (inputs p)))) ->
  let p' := Client.submit srv p in
  (exists m,
     shown p' = Some (made p, {| toast_message := JStr m; toast_type := js "error" |})
     /\ (credentials env -> m = js "Failed to send email. Please try again.")
     /\ (absent_or_empty (EMAILJS_SERVICE_ID env) \/ absent_or_empty (EMAILJS_PUBLIC_KEY env)
         \/ absent_or_empty (EMAILJS_PRIVATE_KEY env) ->
         m = js "Server misconfiguration — missing environment variables."))
  /\ submitBtn p' = {| innerHTML := innerHTML (submitBtn p); disabled := false;
                       background := background (submitBtn p) |}
  /\ inputs p' = inputs p.
Proof.
  intros V H U. cbv zeta.
  pose proof (valid_complete _ V) as C.
  unfold Wire.handled in H. rewrite received_request_of in H.
  assert (Hc : forall v, absent_or_empty v -> ~ non_empty v).
  { intros v [-> | ->] (s & E & N); [discriminate | ]. injection E as <-. now apply N. }
  assert (K : forall m d,
             answer (run (Handler.handler api env
                            {| method := js "POST";
                               req_body := Some (body_of (inputs p)) |}))
             = (500, Some (Json d)) ->
             get d (js "error") = Some (JStr m) -> m <> [] ->
             shown (Client.submit srv p)
             = Some (made p, {| toast_message := JStr m; toast_type := js "error" |})
             /\ submitBtn (Client.submit srv p)
                = {| innerHTML := innerHTML (submitBtn p); disabled := false;
                     background := background (submitBtn p) |}
             /\ inputs (Client.submit srv p) = inputs p).
  { intros m d A G Hm. rewrite (seen_answer _ _ _ A) in H. injection H as H.
    exact (Client_shows_error srv p 500 d m V (eq_sym H) eq_refl G Hm). }
  destruct (falsy (EMAILJS_SERVICE_ID env) || falsy (EMAILJS_PUBLIC_KEY env)
            || falsy (EMAILJS_PRIVATE_KEY env)) eqn:G.
  - rewrite !orb_true_iff, !falsy_absent_or_empty in G.
    assert (G' : absent_or_empty (EMAILJS_SERVICE_ID env)
                 \/ absent_or_empty (EMAILJS_PUBLIC_KEY env)
                 \/ absent_or_empty (EMAILJS_PRIVATE_KEY env)) by tauto.
    destruct (Handler_misconfigured api env
                {| method := js "POST"; req_body := Some (body_of (inputs p)) |}
                eq_refl C G') as [_ A].
    destruct (K _ _ A eq_refl) as (S1 & S2 & S3); [discriminate | ].
    split; [ | split; assumption].
    eexists. split; [exact S1 | ]. split; [ | reflexivity].
    intros (N1 & N2 & N3). exfalso.
    destruct G' as [G' | [G' | G']]; [exact (Hc _ G' N1) | exact (Hc _ G' N2)
                                      | exact (Hc _ G' N3)].
  - apply credentials_guard in G.
    assert (F : fails (api 0%nat (Handler.notification env (body_of (inputs p))))
                \/ succeeds (api 0%nat (Handler.notification env (body_of (inputs p))))
                   /\ fails (api 1%nat (Handler.auto_reply env (body_of (inputs p))))).
    { destruct (fails_or_succeeds
                  (api 0%nat (Handler.notification env (body_of (inputs p)))))
        as [F1 | S1]; [now left | ].
      destruct U as [U | [U | U]]; [ | now left | now right].
      destruct G as (N1 & N2 & N3). exfalso.
      destruct U as [U | [U | U]]; [exact (Hc _ U N1) | exact (Hc _ U N2)
                                    | exact (Hc _ U N3)]. }
    assert (A : exists det,
               answer (run (Handler.handler api env
                              {| method := js "POST";
                                 req_body := Some (body_of (inputs p)) |}))
               = (500, Some (Json (JObj
                    [ (js "error", JStr (js "Failed to send email. Please try again."));
                      (js "details", JStr det) ])))).
    { destruct F as [F1 | [S1 F2]].
      - destruct (Handler_first_fails api env _ C G F1) as [_ A]. eexists. exact A.
      - destruct (Handler_second_fails api env _ C G S1 F2) as [_ A]. eexists. exact A. }
    destruct A as (det & A).
    destruct (K _ _ A eq_refl) as (S1 & S2 & S3); [discriminate | ].
    split; [ | split; assumption].
    eexists. split; [exact S1 | ]. split; [reflexivity | ].
    intros M. destruct G as (N1 & N2 & N3). exfalso.
    destruct M as [M | [M | M]]; [exact (Hc _ M N1) | exact (Hc _ M N2)
                                  | exact (Hc _ M N3)].
Qed.

Lemma handler_failure_reaches_the_visitor_witness :
  valid Sample.form_jo
  /\ Wire.handled (Handler.handler Sample.down Sample.env_full) (request_of Sample.form_jo)
     = Some (MoreSample.failing (request_of Sample.form_jo))
  /\ fails (Sample.down 0%nat
              (Handler.notification Sample.env_full (body_of Sample.form_jo)))
  /\ shown (Client.submit MoreSample.failing (Sample.fresh_page Sample.form_jo))
     = Some (0%nat, {| toast_message := JStr (js "Failed to send email. Please try again.");
                       toast_type := js "error" |})
  /\ inputs (Client.submit MoreSample.failing (Sample.fresh_page Sample.form_jo))
     = Sample.form_jo.
Proof.
  assert (Hn : forall s, s <> [] -> non_empty (Str s)) by (intros s H; now exists s).
  assert (V : valid Sample.form_jo).
  { repeat split; try (vm_compute; discriminate).
    apply emailRegex_shape. vm_compute. reflexivity. }
  assert (W : Wire.handled (Handler.handler Sample.down Sample.env_full)
                (request_of Sample.form_jo)
              = Some (MoreSample.failing (request_of Sample.form_jo))).
  { vm_compute. reflexivity. }
  assert (F : fails (Sample.down 0%nat
                       (Handler.notification Sample.env_full (body_of Sample.form_jo)))).
  { constructor. }
  split; [exact V | ]. split; [exact W | ]. split; [exact F | ].
  destruct (handler_failure_reaches_the_visitor Sample.down Sample.env_full
              MoreSample.failing (Sample.fresh_page Sample.form_jo) V W
              (or_intror (or_introl F))) as ((m & S1 & M & _) & _ & I).
  split; [ | exact I].
  rewrite S1, M; [reflexivity | ].
  repeat split; apply Hn; discriminate.
Defined.

(** X19.  When the handler serves the posting client, the credentials are in
    place and the provider accepts both calls for a form that passes the
    client's checks, the visitor sees the success: the toast confirms that
    the message was sent, the control shows it and stays disabled, and the
    form is reset by the callback scheduled for three seconds later. *)
Theorem handler_success_reaches_the_visitor api env srv p :
  valid (inputs p) ->
  Wire.handled (Handler.handler api env) (request_of (inputs p))
  = Some (srv (request_of (inputs p))) ->
  credentials env ->
  succeeds (api 0%nat (Handler.notification env (body_of (inputs p)))) ->
  succeeds (api 1%nat (Handler.auto_reply env (body_of (inputs p)))) ->
  let p' := Client.submit srv p in
  shown p' = Some (made p,
                   {| toast_message :=
                        JStr (js "Message sent! Check your inbox for a confirmation email.");
                      toast_type := js "success" |})
  /\ innerHTML (submitBtn p') = html "<i class=`fas fa-check`></i> Message Sent!"
  /\ disabled (submitBtn p') = true
  /\ inputs p' = inputs p
  /\ timers p' = timers p ++ [(5000, RemoveToast (made p));
                              (3000, ResetForm (innerHTML (submitBtn p)))]
  /\ inputs (fire (ResetForm (innerHTML (submitBtn p))) p') = defaults p.
Proof.
  intros V H G (st1 & t1 & E1 & O1) (st2 & t2 & E2 & O2). cbv zeta.
  pose proof (valid_complete _ V) as C.
  unfold Wire.handled in H. rewrite received_request_of in H.
  destruct (Handler_both_succeed api env _ st1 t1 st2 t2 C G E1 O1 E2 O2) as [_ A].
  rewrite (seen_answer _ _ _ A) in H. injection H as H.
  unfold Client.submit. rewrite (Client_begin_valid p V).
  cbn [Client.originalHTML Client.posted].
  unfold request_of in H. rewrite <- H. cbn. rewrite <- app_assoc. repeat split.
Qed.

Lemma handler_success_reaches_the_visitor_witness :
  valid Sample.form_jo
  /\ credentials Sample.env_full
  /\ Wire.handled (Handler.handler Sample.accepting Sample.env_full)
       (request_of Sample.form_jo)
     = Some (MoreSample.thanking (request_of Sample.form_jo))
  /\ inputs (fire (ResetForm (js "Send Message"))
               (Client.submit MoreSample.thanking (Sample.fresh_page Sample.form_jo)))
     = Sample.empty_form.
Proof.
  assert (Hn : forall s, s <> [] -> non_empty (Str s)) by (intros s H; now exists s).
  assert (V : valid Sample.form_jo).
  { repeat split; try (vm_compute; discriminate).
    apply emailRegex_shape. vm_compute. reflexivity. }
  assert (G : credentials Sample.env_full) by (repeat split; apply Hn; discriminate).
  assert (W : Wire.handled (Handler.handler Sample.accepting Sample.env_full)
                (request_of Sample.form_jo)
              = Some (MoreSample.thanking (request_of Sample.form_jo))).
  { vm_compute. reflexivity. }
  split; [exact V | ]. split; [exact G | ]. split; [exact W | ].
  destruct (handler_success_reaches_the_visitor Sample.accepting Sample.env_full
              MoreSample.thanking (Sample.fresh_page Sample.form_jo) V W G)
    as (_ & _ & _ & _ & _ & R).
  - exists 200, (js "OK"). split; reflexivity.
  - exists 200, (js "OK"). split; reflexivity.
  - exact R.
Defined.

End WireMore.
